(** * ElderlyCare API server: query orchestration and response parsing

    A shallow embedding of [src/api/server.py]: the Ollama client
    ([check_health], [generate_response]), the [/api/analyze] handler
    ([analyze_query]) and the step parser ([extract_steps]).

    Conventions.
    - A Python [str] is a [string] whose characters are the code points
      below 256; [isspace], [isdigit] and [lower] are Python's on that
      range.
    - The HTTP transport, the JSON decoder and the clock are the
      environment: they are variables of the sections below.
    - A coroutine is a function of the log of requests sent so far; it
      returns a value or a raised exception, and the new log. *)

From Stdlib Require Import String Ascii List ZArith NArith Lia Bool.
From Stdlib Require Import DecimalString Floats.
Import ListNotations.
Open Scope string_scope.
Set Warnings "-register-all,-inexact-float".

(** ** Python [str] builtins *)

Module PyStr.

Definition ord (c : ascii) : N := N_of_ascii c.

(** [c.isspace()]: general category Zs or bidirectional class WS, B or S. *)
Definition isspace (c : ascii) : bool :=
  let n := ord c in
  (((9 <=? n) && (n <=? 13)) || ((28 <=? n) && (n <=? 32))
   || (n =? 133) || (n =? 160))%N.

(** [c.isdigit()]: Numeric_Type Decimal or Digit, that is [0-9] and the
    superscripts two, three and one. *)
Definition isdigit (c : ascii) : bool :=
  let n := ord c in
  (((48 <=? n) && (n <=? 57)) || (n =? 178) || (n =? 179) || (n =? 185))%N.

(** [c.isdecimal()]: Numeric_Type Decimal only. *)
Definition isdecimal (c : ascii) : bool :=
  let n := ord c in ((48 <=? n) && (n <=? 57))%N.

Definition lower_char (c : ascii) : ascii :=
  let n := ord c in
  if (((65 <=? n) && (n <=? 90))
      || ((192 <=? n) && (n <=? 222) && negb (n =? 215)))%N
  then ascii_of_N (n + 32) else c.

Fixpoint lower (s : string) : string :=
  match s with
  | EmptyString => EmptyString
  | String c r => String (lower_char c) (lower r)
  end.

(** [bool(s)] *)
Definition truthy (s : string) : bool :=
  match s with EmptyString => false | String _ _ => true end.

Definition len (s : string) : Z := Z.of_nat (String.length s).

(** [s.startswith(p)] *)
Fixpoint startswith (s p : string) {struct p} : bool :=
  match p with
  | EmptyString => true
  | String c p' =>
      match s with
      | EmptyString => false
      | String d s' => Ascii.eqb d c && startswith s' p'
      end
  end.

(** [needle in hay] *)
Fixpoint contains (needle hay : string) : bool :=
  startswith hay needle
  || match hay with
     | EmptyString => false
     | String _ r => contains needle r
     end.

Fixpoint lstrip (s : string) : string :=
  match s with
  | EmptyString => EmptyString
  | String c r => if isspace c then lstrip r else s
  end.

Fixpoint rstrip (s : string) : string :=
  match s with
  | EmptyString => EmptyString
  | String c r =>
      match rstrip r with
      | EmptyString => if isspace c then EmptyString else String c EmptyString
      | r' => String c r'
      end
  end.

(** [s.strip()] *)
Definition strip (s : string) : string := rstrip (lstrip s).

(** [s.split(sep)] for a one-character separator, as the first piece and
    the others: the result is never the empty list. *)
Fixpoint split_pieces (sep : ascii) (s : string) : string * list string :=
  match s with
  | EmptyString => (EmptyString, [])
  | String c r =>
      let (h, t) := split_pieces sep r in
      if Ascii.eqb c sep then (EmptyString, h :: t) else (String c h, t)
  end.

Definition split (sep : ascii) (s : string) : list string :=
  let (h, t) := split_pieces sep s in h :: t.

(** The two halves of [s] around the first [sep], if there is one. *)
Fixpoint cut (sep : ascii) (s : string) : option (string * string) :=
  match s with
  | EmptyString => None
  | String c r =>
      if Ascii.eqb c sep then Some (EmptyString, r)
      else match cut sep r with
           | Some (a, b) => Some (String c a, b)
           | None => None
           end
  end.

(** [s.split(sep, 1)] *)
Definition split1 (sep : ascii) (s : string) : list string :=
  match cut sep s with
  | Some (a, b) => [a; b]
  | None => [s]
  end.

(** [l[-1]] on a list of strings that is not empty. *)
Definition item_last (l : list string) : string := List.last l EmptyString.

(** [sep.join(l)] *)
Fixpoint join (sep : string) (l : list string) : string :=
  match l with
  | [] => EmptyString
  | [x] => x
  | x :: r => x ++ sep ++ join sep r
  end.

Definition LF : ascii := "010"%char.
Definition nl : string := String LF EmptyString.

End PyStr.

(** ** [extract_steps] *)

Module Steps.
Import PyStr.

(** One turn of the [for line in lines] loop, on the list [steps]. *)
Definition loop_body (steps : list string) (line : string) : list string :=
  let line := strip line in
  match line with
  | EmptyString => steps
  | String c0 _ =>
      if isdigit c0 || startswith (lower line) "step" then
        let clean_step :=
          if isdigit c0 then
            let clean_step := strip (item_last (split1 "." line)) in
            strip (item_last (split1 ")" clean_step))
          else if startswith (lower line) "step" then
            strip (item_last (split1 ":" line))
          else line in
        if truthy clean_step then steps ++ [clean_step] else steps
      else steps
  end.

Definition extract_steps (text : string) : option (list string) :=
  let steps := [] in
  let lines := split LF text in
  let steps := fold_left loop_body lines steps in
  match steps with
  | [] => None
  | _ :: _ => Some steps
  end.

End Steps.

(** ** Python values: what [response.json()] returns *)

Module Py.

(** A [dict] is the list of its items, in insertion order, with distinct
    keys. *)
Inductive value : Type :=
| VNone
| VBool (b : bool)
| VInt (z : Z)
| VFloat (f : float)
| VStr (s : string)
| VList (l : list value)
| VDict (d : list (string * value)).

(** Every subclass of [Exception] the server can meet. [HTTPStatusError]
    is httpx's, with [e.response.status_code] and [e.response.text];
    [HTTPException] is FastAPI's; [Error] is any other class, with
    [str(e)] as its message. *)
Inductive exc : Type :=
| HTTPStatusError (message : string) (status_code : Z) (text : string)
| HTTPException (status_code : Z) (detail : string)
| Error (cls : string) (message : string).

(** [str(z)] for an [int] *)
Definition str_int (z : Z) : string := NilZero.string_of_int (Z.to_int z).

(** [str(e)] *)
Definition str_exc (e : exc) : string :=
  match e with
  | HTTPStatusError message _ _ => message
  | HTTPException status_code detail => str_int status_code ++ ": " ++ detail
  | Error _ message => message
  end.

(** The result of an expression: its value, or the exception it raises. *)
Inductive result (A : Type) : Type :=
| Return (a : A)
| Raise (e : exc).
Arguments Return {A} a.
Arguments Raise {A} e.

Definition rbind {A B : Type} (m : result A) (k : A -> result B) : result B :=
  match m with
  | Return a => k a
  | Raise e => Raise e
  end.

Fixpoint lookup (key : string) (d : list (string * value)) : option value :=
  match d with
  | [] => None
  | (k, v) :: r => if String.eqb k key then Some v else lookup key r
  end.

Definition type_name (v : value) : string :=
  match v with
  | VNone => "NoneType"
  | VBool _ => "bool"
  | VInt _ => "int"
  | VFloat _ => "float"
  | VStr _ => "str"
  | VList _ => "list"
  | VDict _ => "dict"
  end.

Definition AttributeError (v : value) (attr : string) : exc :=
  Error "AttributeError"
    ("'" ++ type_name v ++ "' object has no attribute '" ++ attr ++ "'").

Definition TypeError (message : string) : exc := Error "TypeError" message.

Definition KeyError (key : string) : exc :=
  Error "KeyError" ("'" ++ key ++ "'").

(** [v.get(key, default)]: only a [dict] has the method. *)
Definition get (v : value) (key : string) (default : value) : result value :=
  match v with
  | VDict d =>
      match lookup key d with
      | Some x => Return x
      | None => Return default
      end
  | _ => Raise (AttributeError v "get")
  end.

(** [v[key]] for a [str] key *)
Definition getitem (v : value) (key : string) : result value :=
  match v with
  | VDict d =>
      match lookup key d with
      | Some x => Return x
      | None => Raise (KeyError key)
      end
  | VList _ => Raise (TypeError "list indices must be integers or slices, not str")
  | VStr _ => Raise (TypeError "string indices must be integers, not 'str'")
  | _ => Raise (TypeError ("'" ++ type_name v ++ "' object is not subscriptable"))
  end.

Fixpoint chars (s : string) : list value :=
  match s with
  | EmptyString => []
  | String c r => VStr (String c EmptyString) :: chars r
  end.

(** The items [for x in v] visits. *)
Definition iter (v : value) : result (list value) :=
  match v with
  | VList l => Return l
  | VDict d => Return (map (fun kv => VStr (fst kv)) d)
  | VStr s => Return (chars s)
  | _ => Raise (TypeError ("'" ++ type_name v ++ "' object is not iterable"))
  end.

(** [x == needle] for a [str] needle *)
Definition eq_str (needle : string) (x : value) : bool :=
  match x with
  | VStr s => String.eqb s needle
  | _ => false
  end.

(** [needle in v] for a [str] needle *)
Definition contains (needle : string) (v : value) : result bool :=
  match v with
  | VStr s => Return (PyStr.contains needle s)
  | VList l => Return (existsb (eq_str needle) l)
  | VDict d => Return (existsb (fun kv => String.eqb (fst kv) needle) d)
  | _ => Raise (TypeError ("argument of type '" ++ type_name v ++ "' is not iterable"))
  end.

(** [[f(x) for x in l]] *)
Fixpoint comprehension {A B : Type} (f : A -> result B) (l : list A)
  : result (list B) :=
  match l with
  | [] => Return []
  | x :: r =>
      rbind (f x) (fun y => rbind (comprehension f r) (fun ys => Return (y :: ys)))
  end.

(** [any(f(x) for x in l)]: stops at the first true item. *)
Fixpoint any {A : Type} (f : A -> result bool) (l : list A) : result bool :=
  match l with
  | [] => Return false
  | x :: r => rbind (f x) (fun b => if b then Return true else any f r)
  end.

(** [x if o else other], with [x] computed from the string [o] holds: the
    test is false on [None] and on the empty string. *)
Definition if_truthy {A : Type} (o : option string) (f : string -> A) (other : A) : A :=
  match o with
  | Some s => if PyStr.truthy s then f s else other
  | None => other
  end.

(** [o or default] for an optional string *)
Definition or_str (o : option string) (default : string) : string :=
  if_truthy o (fun s => s) default.

(** [o or default] for an optional [dict] *)
Definition or_dict (o : option (list (string * value)))
  (default : list (string * value)) : list (string * value) :=
  match o with
  | Some (kv :: r) => kv :: r
  | _ => default
  end.

(** [bool(o)] for an optional list *)
Definition truthy_list {A : Type} (o : option (list A)) : bool :=
  match o with
  | Some (_ :: _) => true
  | _ => false
  end.

End Py.

(** ** Coroutines over the HTTP client *)

Module Http.
Import Py.

(** The [json=payload] of [/api/generate]; the key [images] may be
    missing. *)
Record Payload : Type := mkPayload {
  payload_model : string;
  payload_prompt : string;
  payload_stream : bool;
  payload_options : list (string * value);
  payload_images : option (list string)
}.

Inductive Request : Type :=
| GET (url : string)
| POST (url : string) (json : Payload).

(** An [httpx.Response]: [json] is what [response.json()] does, return
    the decoded body or raise. *)
Record Response : Type := mkResponse {
  status_code : Z;
  text : string;
  json : result value
}.

(** The requests handed to the [AsyncClient], oldest first. *)
Definition Log : Type := list Request.

Definition Co (A : Type) : Type := Log -> result A * Log.

Definition ret {A : Type} (a : A) : Co A := fun log => (Return a, log).

Definition raise {A : Type} (e : exc) : Co A := fun log => (Raise e, log).

Definition lift {A : Type} (r : result A) : Co A := fun log => (r, log).

Definition bind {A B : Type} (m : Co A) (k : A -> Co B) : Co B :=
  fun log =>
    match m log with
    | (Return a, log') => k a log'
    | (Raise e, log') => (Raise e, log')
    end.

(** [try: body except Exception as e: handler(e)] *)
Definition try_except {A : Type} (body : Co A) (handler : exc -> Co A) : Co A :=
  fun log =>
    match body log with
    | (Return a, log') => (Return a, log')
    | (Raise e, log') => handler e log'
    end.

Declare Scope co_scope.
Delimit Scope co_scope with co.
Notation "x <- m ;; k" := (bind m (fun x => k))
  (at level 61, m at next level, right associativity) : co_scope.
Notation "m ;;; k" := (bind m (fun _ => k))
  (at level 61, right associativity) : co_scope.

(** [response.is_success] *)
Definition is_success (r : Response) : bool :=
  ((200 <=? status_code r) && (status_code r <=? 299))%Z.

End Http.

(** ** The server *)

Module Server.
Import PyStr Py Http.
Open Scope co_scope.

Record Settings : Type := mkSettings {
  ollama_base_url : string;
  default_model : string;
  max_image_size : Z;
  port : Z;
  debug : bool
}.

(** [Settings()] with no environment variable and no [.env] file. *)
Definition Settings_defaults : Settings :=
  {| ollama_base_url := "http://localhost:11434";
     default_model := "gemma3:4b-instruct-q4_0";
     max_image_size := 10 * 1024 * 1024;
     port := 8000;
     debug := false |}.

Module AnalysisRequest.
Record t : Type := mk {
  query : string;
  context : string;
  image : option string;
  model : option string
}.
End AnalysisRequest.

Module AnalysisResponse.
Record t : Type := mk {
  guidance : string;
  steps : option (list string);
  confidence : float;
  model_used : string;
  context : string;
  timestamp : string
}.
End AnalysisResponse.

(** The [dict] of [check_health]; the key [error] may be missing. *)
Module Health.
Record t : Type := mk {
  status : string;
  error : option string;
  models : list value;
  gemma_available : bool
}.
End Health.

(** The [dict] of [generate_response]; the keys [data] and [error] may be
    missing. *)
Module Generated.
Record t : Type := mk {
  success : bool;
  data : option value;
  error : option string
}.
End Generated.

Record OllamaClient : Type := mkOllamaClient {
  base_url : string
}.

(** [d[key]] on a key that may be missing *)
Definition item {A : Type} (key : string) (o : option A) : Co A :=
  match o with
  | Some a => ret a
  | None => raise (KeyError key)
  end.

Definition default_options : list (string * value) :=
  [("temperature", VFloat 0.3); ("top_p", VFloat 0.9);
   ("repeat_penalty", VFloat 1.1)].

Definition dquote : string := String "034"%char EmptyString.

Section Environment.

(** What the [AsyncClient] does with a request, given those it was handed
    before: a response, or a raised transport error or timeout. *)
Variable transport : Log -> Request -> result Response.

(** The message of the [HTTPStatusError] that [raise_for_status] builds. *)
Variable status_message : Response -> string.

(** [datetime.now().isoformat()] when the response is built. *)
Variable now : string.

Variable settings : Settings.

(** [await self.client.get(url)] and [await self.client.post(url, json=...)] *)
Definition client_send (req : Request) : Co Response :=
  fun log => (transport log req, (log ++ [req])%list).

Definition raise_for_status (r : Response) : Co unit :=
  if is_success r then ret tt
  else raise (HTTPStatusError (status_message r) (status_code r) (text r)).

(** [logger.error(...)]: the server's own log is not part of the model. *)
Definition logger_error (message : string) : Co unit := ret tt.

Definition check_health (self : OllamaClient) : Co Health.t :=
  try_except
    (response <- client_send (GET (base_url self ++ "/api/tags")) ;;
     raise_for_status response ;;;
     data <- lift (json response) ;;
     items <- lift (rbind (get data "models" (VList [])) iter) ;;
     models <- lift (comprehension (fun model => getitem model "name") items) ;;
     gemma <- lift (any (fun model => contains "gemma3" model) models) ;;
     ret {| Health.status := "healthy";
            Health.error := None;
            Health.models := models;
            Health.gemma_available := gemma |})
    (fun e =>
       logger_error ("Ollama health check failed: " ++ str_exc e) ;;;
       ret {| Health.status := "unhealthy";
              Health.error := Some (str_exc e);
              Health.models := [];
              Health.gemma_available := false |}).

Definition generate_response (self : OllamaClient) (model prompt : string)
  (images : option (list string)) (options : option (list (string * value)))
  : Co Generated.t :=
  try_except
    (let payload :=
       {| payload_model := model;
          payload_prompt := prompt;
          payload_stream := false;
          payload_options := or_dict options default_options;
          payload_images := None |} in
     let payload :=
       if truthy_list images
       then {| payload_model := payload_model payload;
               payload_prompt := payload_prompt payload;
               payload_stream := payload_stream payload;
               payload_options := payload_options payload;
               payload_images := images |}
       else payload in
     response <- client_send (POST (base_url self ++ "/api/generate") payload) ;;
     raise_for_status response ;;;
     data <- lift (json response) ;;
     ret {| Generated.success := true;
            Generated.data := Some data;
            Generated.error := None |})
    (fun e =>
       match e with
       | HTTPStatusError _ code body =>
           logger_error ("Ollama HTTP error: " ++ str_int code ++ " " ++ body) ;;;
           ret {| Generated.success := false;
                  Generated.data := None;
                  Generated.error :=
                    Some ("Ollama error: " ++ str_int code ++ " " ++ body) |}
       | _ =>
           logger_error ("Ollama generation error: " ++ str_exc e) ;;;
           ret {| Generated.success := false;
                  Generated.data := None;
                  Generated.error := Some (str_exc e) |}
       end).

(** [ollama_client = OllamaClient()] *)
Definition ollama_client : OllamaClient :=
  {| base_url := ollama_base_url settings |}.

(** The f-string of [analyze_query]. *)
Definition system_prompt (request : AnalysisRequest.t) : string :=
  "You are a patient, helpful AI assistant specifically designed to help elderly users learn smartphone technology." ++ nl
  ++ nl
  ++ "Your characteristics:" ++ nl
  ++ "- Use simple, clear language" ++ nl
  ++ "- Break down tasks into small, manageable steps" ++ nl
  ++ "- Be encouraging and patient" ++ nl
  ++ "- Avoid technical jargon" ++ nl
  ++ "- Repeat important information" ++ nl
  ++ "- Assume the user may need extra reassurance" ++ nl
  ++ nl
  ++ "Current app context: " ++ AnalysisRequest.context request ++ nl
  ++ if_truthy (AnalysisRequest.image request)
       (fun _ => "The user has provided a screenshot of their phone screen for you to analyze.")
       EmptyString ++ nl
  ++ nl
  ++ "User's question: " ++ dquote ++ AnalysisRequest.query request ++ dquote ++ nl
  ++ nl
  ++ "Please provide step-by-step guidance that is easy to follow. If analyzing a screenshot, describe what you see and provide specific guidance based on the current screen.".

(** [extract_steps(response_text)] on a value that may not be a [str]. *)
Definition call_extract_steps (response_text : value)
  : result (string * option (list string)) :=
  match response_text with
  | VStr s => Return (s, Steps.extract_steps s)
  | v => Raise (AttributeError v "split")
  end.

Definition analyze_query (request : AnalysisRequest.t) : Co AnalysisResponse.t :=
  try_except
    ((if if_truthy (AnalysisRequest.image request)
            (fun image => (len image >? max_image_size settings)%Z) false
      then raise (HTTPException 413 "Image too large")
      else ret tt) ;;;
     let model := or_str (AnalysisRequest.model request) (default_model settings) in
     let prompt := system_prompt request in
     let images :=
       if_truthy (AnalysisRequest.image request) (fun image => Some [image]) None in
     result <- generate_response ollama_client model prompt images None ;;
     (if negb (Generated.success result)
      then
        error <- item "error" (Generated.error result) ;;
        raise (HTTPException 500 ("Failed to generate response: " ++ error))
      else ret tt) ;;;
     data <- item "data" (Generated.data result) ;;
     response_text <- lift (get data "response" (VStr EmptyString)) ;;
     extracted <- lift (call_extract_steps response_text) ;;
     ret {| AnalysisResponse.guidance := fst extracted;
            AnalysisResponse.steps := snd extracted;
            AnalysisResponse.confidence := 0.9;
            AnalysisResponse.model_used := model;
            AnalysisResponse.context := AnalysisRequest.context request;
            AnalysisResponse.timestamp := now |})
    (fun e =>
       match e with
       | HTTPException _ _ => raise e
       | _ =>
           logger_error ("Analysis error: " ++ str_exc e) ;;;
           raise (HTTPException 500 "Internal server error")
       end).

End Environment.

End Server.

(** ** The step parser as the specification words it *)

Module StepSpec.
Import PyStr.

Definition trim (s : string) : string := strip s.

Definition first_char_is (p : ascii -> bool) (t : string) : bool :=
  match t with
  | String c _ => p c
  | EmptyString => false
  end.

(** The lowercased form starts with the prefix [step]. *)
Definition step_led (t : string) : bool := startswith (lower t) "step".

Definition qualifies (digit : ascii -> bool) (t : string) : bool :=
  first_char_is digit t || step_led t.

(** [t] without its text up to and including the first [sep], if any. *)
Definition after_first (sep : ascii) (t : string) : string :=
  match cut sep t with
  | Some (_, b) => b
  | None => t
  end.

Definition cleaned (digit : ascii -> bool) (t : string) : string :=
  if first_char_is digit t
  then trim (after_first ")" (after_first "." t))
  else trim (after_first ":" t).

(** [extract], for a given reading [digit] of what a digit is. *)
Definition extract (digit : ascii -> bool) (text : string) : option (list string) :=
  let found :=
    filter truthy
      (map (cleaned digit) (filter (qualifies digit) (map trim (split LF text)))) in
  match found with
  | [] => None
  | _ :: _ => Some found
  end.

(** What one line contributes: its cleaned form, or nothing. *)
Definition contribution (digit : ascii -> bool) (line : string) : list string :=
  let t := trim line in
  if qualifies digit t
  then if truthy (cleaned digit t) then [cleaned digit t] else []
  else [].

(** [c in s] for one character *)
Definition occurs (c : ascii) (s : string) : bool :=
  match cut c s with
  | Some _ => true
  | None => false
  end.

(** A step line that carries no marker: cleaning it leaves it as it is. *)
Definition marker_free (s : string) : bool :=
  if first_char_is isdigit s
  then negb (occurs "." s) && negb (occurs ")" s)
  else step_led s && negb (occurs ":" s).

(** What every step found is: trimmed, not empty, free of line feeds. *)
Definition is_step (s : string) : Prop :=
  strip s = s /\ truthy s = true /\ cut LF s = None.

End StepSpec.

(** ** The client's outcomes as the specification words them *)

Module ClientSpec.
Import PyStr Py Http Server.

(** The exception that ends the client's [try] block at the request or on
    its response, if any: a transport error or timeout, a status that is
    not 2xx, a body that does not decode. *)
Definition raised (status_message : Response -> string) (o : result Response)
  : option exc :=
  match o with
  | Raise e => Some e
  | Return r =>
      if is_success r
      then match json r with
           | Raise e => Some e
           | Return _ => None
           end
      else Some (HTTPStatusError (status_message r) (status_code r) (text r))
  end.

(** [BackendHealth{reachable: false, availableModels: [],
    targetModelFamilyPresent: false, errorDetail: cause}] *)
Definition unhealthy (cause : string) : Health.t :=
  {| Health.status := "unhealthy";
     Health.error := Some cause;
     Health.models := [];
     Health.gemma_available := false |}.

(** [Failure{reason}] *)
Definition Failure (reason : string) : Generated.t :=
  {| Generated.success := false;
     Generated.data := None;
     Generated.error := Some reason |}.

(** [Success{rawText}], with the decoded body for the text *)
Definition Success (data : value) : Generated.t :=
  {| Generated.success := true;
     Generated.data := Some data;
     Generated.error := None |}.

(** The reason of a failed generation: the upstream status code and body
    when there is a response, the error's own text otherwise. *)
Definition failure_reason (e : exc) : string :=
  match e with
  | HTTPStatusError _ code body => "Ollama error: " ++ str_int code ++ " " ++ body
  | _ => str_exc e
  end.

(** The [json=payload] of a generation request. *)
Definition payload_of (model prompt : string) (images : option (list string))
  (options : option (list (string * value))) : Payload :=
  {| payload_model := model;
     payload_prompt := prompt;
     payload_stream := false;
     payload_options := or_dict options default_options;
     payload_images := if truthy_list images then images else None |}.

(** The status code the calling client receives. *)
Definition http_status {A : Type} (r : result A) : Z :=
  match r with
  | Return _ => 200
  | Raise (HTTPException code _) => code
  | Raise _ => 500
  end.

(** The [detail] of the error the calling client receives, if any. *)
Definition http_detail {A : Type} (r : result A) : option string :=
  match r with
  | Raise (HTTPException _ detail) => Some detail
  | _ => None
  end.

(** The request of [check_health] and the one of [analyze_query]. *)
Definition tags_request (self : OllamaClient) : Request :=
  GET (base_url self ++ "/api/tags").

Definition generate_request (self : OllamaClient) (model prompt : string)
  (images : option (list string)) (options : option (list (string * value)))
  : Request :=
  POST (base_url self ++ "/api/generate") (payload_of model prompt images options).

Definition analyze_request (settings : Settings) (request : AnalysisRequest.t)
  : Request :=
  generate_request (ollama_client settings)
    (or_str (AnalysisRequest.model request) (default_model settings))
    (system_prompt request)
    (if_truthy (AnalysisRequest.image request) (fun image => Some [image]) None)
    None.

(** The image of the request is over the ceiling. *)
Definition too_large (settings : Settings) (request : AnalysisRequest.t) : bool :=
  if_truthy (AnalysisRequest.image request)
    (fun image => (len image >? max_image_size settings)%Z) false.

(** What a decoded listing holds: the names and the readiness flag. *)
Definition listing (data : value) : result (list value * bool) :=
  rbind (rbind (get data "models" (VList [])) iter) (fun items =>
  rbind (comprehension (fun model => getitem model "name") items) (fun models =>
  rbind (any (fun model => Py.contains "gemma3" model) models) (fun gemma =>
  Return (models, gemma)))).

(** The names a decoded listing reports: what stands under [name] in
    each entry of what stands under [models]. *)
Definition reported_names (data : value) : result (list value) :=
  rbind (rbind (get data "models" (VList [])) iter)
    (comprehension (fun entry => getitem entry "name")).

Definition healthy (models : list value) (gemma : bool) : Health.t :=
  {| Health.status := "healthy";
     Health.error := None;
     Health.models := models;
     Health.gemma_available := gemma |}.

(** The dictionary of [generate_response] for an outcome of the transport. *)
Definition generation (status_message : Response -> string) (o : result Response)
  : Generated.t :=
  match raised status_message o, o with
  | Some e, _ => Failure (failure_reason e)
  | None, Return r =>
      match json r with
      | Return data => Success data
      | Raise e => Failure (failure_reason e)
      end
  | None, Raise e => Failure (failure_reason e)
  end.

(** The answer of [analyze_query] to a decoded body. *)
Definition answer (now : string) (settings : Settings)
  (request : AnalysisRequest.t) (data : value) : result AnalysisResponse.t :=
  match rbind (get data "response" (VStr EmptyString)) call_extract_steps with
  | Return (guidance, steps) =>
      Return {| AnalysisResponse.guidance := guidance;
                AnalysisResponse.steps := steps;
                AnalysisResponse.confidence := 0.9;
                AnalysisResponse.model_used :=
                  or_str (AnalysisRequest.model request) (default_model settings);
                AnalysisResponse.context := AnalysisRequest.context request;
                AnalysisResponse.timestamp := now |}
  | Raise _ => Raise (HTTPException 500 "Internal server error")
  end.

End ClientSpec.

(** ** Backends to run the server against *)

Module Doubles.
Import PyStr Py Http Server.

Definition unreachable : Log -> Request -> result Response :=
  fun _ _ => Raise (Error "ConnectError" "All connection attempts failed").

Definition answers (r : Response) : Log -> Request -> result Response :=
  fun _ _ => Return r.

Definition reason_phrase (r : Response) : string :=
  "Error '" ++ str_int (status_code r) ++ "'".

Definition ok (body : string) (data : value) : Response :=
  {| status_code := 200; text := body; json := Return data |}.

Definition not_found : Response :=
  {| status_code := 404;
     text := "model not found";
     json := Return (VDict [("error", VStr "model not found")]) |}.

Definition garbled : Response :=
  {| status_code := 200;
     text := "<html>";
     json := Raise (Error "JSONDecodeError" "Expecting value: line 1 column 1 (char 0)") |}.

(** Settings with a ceiling of three characters. *)
Definition settings3 : Settings :=
  {| ollama_base_url := "http://localhost:11434";
     default_model := "gemma3:4b-instruct-q4_0";
     max_image_size := 3;
     port := 8000;
     debug := false |}.

Definition ask (image model : option string) : AnalysisRequest.t :=
  AnalysisRequest.mk "How do I call my son?" "phone" image model.

Definition clock : string := "2025-01-01T00:00:00".

Definition client : OllamaClient := ollama_client Settings_defaults.

Definition tags : value :=
  VDict [("models",
          VList [VDict [("name", VStr "llama3:8b")];
                 VDict [("name", VStr "gemma3:4b-instruct-q4_0")]])].

Definition generated : value :=
  VDict [("response", VStr ("1. Open the Phone app" ++ nl ++ "2. Tap the name"));
         ("done", VBool true)].

(** A listing with an entry that has no name, and bodies of generations
    with no text or with a text that is no string. *)
Definition tags_nameless : value :=
  VDict [("models",
          VList [VDict [("name", VStr "gemma3:4b-instruct-q4_0")];
                 VDict [("model", VStr "llama3:8b")]])].

Definition tags_null : value := VDict [("models", VNone)].

Definition generated_nothing : list (string * value) := [("done", VBool true)].

Definition generated_null : value := VDict [("response", VNone)].

(** A file of the data preparation: a conversation of one turn, one of
    two turns with the context left out, and one with no turns at all. *)
Definition training_file : list value :=
  [VDict [("context", VStr "phone");
          ("conversations",
           VList [VDict [("user_query", VStr "How do I call?");
                         ("assistant_response", VStr "1. Open the Phone app");
                         ("metadata", VDict [])]])];
   VDict [("conversations",
           VList [VDict [("user_query", VStr "I see Chats")];
                  VDict [("assistant_response", VStr "Tap it")]]);
          ("metadata", VDict [])];
   VDict [("context", VStr "settings")]].

End Doubles.

(** ** The other routes *)

Module Endpoints.
Import PyStr Py Http Server.
Open Scope co_scope.

Module ScreenshotRequest.
Record t : Type := mk {
  image : string;
  query : string;
  context : string
}.
End ScreenshotRequest.

Module HealthResponse.
Record t : Type := mk {
  server_status : string;
  ollama_status : string;
  available_models : list string;
  gemma_available : bool;
  timestamp : string
}.
End HealthResponse.

(** The [dict] that [get_models] returns. *)
Module Models.
Record t : Type := mk {
  models : list value;
  recommended : string;
  gemma_available : bool
}.
End Models.

Definition ValidationError (message : string) : exc :=
  Error "ValidationError" message.

(** pydantic on a field of type [str]: of what JSON decodes to, only a
    [str] is taken. *)
Definition validate_str (v : value) : result string :=
  match v with
  | VStr s => Return s
  | _ => Raise (ValidationError "Input should be a valid string")
  end.

(** [HealthResponse(server_status=..., ollama_status=..., available_models=...,
    gemma_available=...)]: [available_models] is a [list[str]]. *)
Definition new_HealthResponse (now server_status ollama_status : string)
  (available_models : list value) (gemma_available : bool)
  : result HealthResponse.t :=
  rbind (comprehension validate_str available_models) (fun names =>
  Return {| HealthResponse.server_status := server_status;
            HealthResponse.ollama_status := ollama_status;
            HealthResponse.available_models := names;
            HealthResponse.gemma_available := gemma_available;
            HealthResponse.timestamp := now |}).

(** [AnalysisRequest(query=..., context=..., image=...)]: [query] has
    [min_length=1] and [max_length=1000]; [model] takes its default. *)
Definition new_AnalysisRequest (query context : string) (image : option string)
  : result AnalysisRequest.t :=
  if (len query <? 1)%Z
  then Raise (ValidationError "String should have at least 1 character")
  else if (len query >? 1000)%Z
  then Raise (ValidationError "String should have at most 1000 characters")
  else Return (AnalysisRequest.mk query context image None).

(** [logger.info(...)] and [logger.warning(...)]: the server's own log
    is not part of the model. *)
Definition logger_info (message : string) : Co unit := ret tt.

Definition logger_warning (message : string) : Co unit := ret tt.

Section Environment.

Variable transport : Log -> Request -> result Response.
Variable status_message : Response -> string.
Variable now : string.
Variable settings : Settings.

(** [GET /health] *)
Definition health_check : Co HealthResponse.t :=
  ollama_health <- check_health transport status_message (ollama_client settings) ;;
  lift (new_HealthResponse now "healthy"
          (Health.status ollama_health)
          (Health.models ollama_health)
          (Health.gemma_available ollama_health)).

(** [GET /api/models] *)
Definition get_models : Co Models.t :=
  health <- check_health transport status_message (ollama_client settings) ;;
  if negb (String.eqb (Health.status health) "healthy")
  then raise (HTTPException 503 "Ollama service not available")
  else ret {| Models.models := Health.models health;
              Models.recommended := default_model settings;
              Models.gemma_available := Health.gemma_available health |}.

(** [POST /api/screenshot] *)
Definition analyze_screenshot (request : ScreenshotRequest.t)
  : Co AnalysisResponse.t :=
  analysis_request <-
    lift (new_AnalysisRequest (ScreenshotRequest.query request)
            (ScreenshotRequest.context request)
            (Some (ScreenshotRequest.image request))) ;;
  analyze_query transport status_message now settings analysis_request.

(** The start of [lifespan], up to its [yield]: the health check, whose
    result is only logged. *)
Definition lifespan_startup : Co unit :=
  health <- check_health transport status_message (ollama_client settings) ;;
  (if String.eqb (Health.status health) "healthy"
   then
     logger_info "Connected to Ollama" ;;;
     if Health.gemma_available health
     then logger_info "Gemma 3 models detected"
     else logger_warning "No Gemma 3 models found"
   else logger_warning "Ollama not available") ;;;
  ret tt.

End Environment.

End Endpoints.

(** ** The prompts of the training script *)

Module Training.
Import PyStr.

Definition base_instruction : string :=
  "You are a patient, helpful AI assistant designed to help elderly users learn smartphone technology." ++ nl
  ++ nl
  ++ "Your characteristics:" ++ nl
  ++ "- Use simple, clear language" ++ nl
  ++ "- Break tasks into small steps" ++ nl
  ++ "- Be encouraging and patient" ++ nl
  ++ "- Avoid technical jargon" ++ nl
  ++ "- Provide reassurance".

Definition context_specific : list (string * string) :=
  [("whatsapp", "Focus on WhatsApp messaging, profile management, and calling features.");
   ("phone", "Focus on making calls, managing contacts, and emergency features.");
   ("settings", "Focus on accessibility settings, display options, and basic phone configuration.");
   ("general", "Provide general smartphone guidance.")].

(** [d.get(key, default)] on a [dict] from strings to strings *)
Fixpoint dict_get (d : list (string * string)) (key default : string) : string :=
  match d with
  | [] => default
  | (k, v) :: r => if String.eqb k key then v else dict_get r key default
  end.

Definition _build_instruction (context : string) : string :=
  base_instruction ++ nl ++ nl ++ "Context: "
  ++ dict_get context_specific context
       (dict_get context_specific "general" EmptyString).

Definition format_prompt (instruction input_text output : string) : string :=
  if truthy output
  then "<bos><start_of_turn>user" ++ nl
       ++ instruction ++ nl
       ++ nl
       ++ input_text ++ "<end_of_turn>" ++ nl
       ++ "<start_of_turn>model" ++ nl
       ++ output ++ "<end_of_turn><eos>"
  else "<bos><start_of_turn>user" ++ nl
       ++ instruction ++ nl
       ++ nl
       ++ input_text ++ "<end_of_turn>" ++ nl
       ++ "<start_of_turn>model" ++ nl.

(** One row of [formatted_data]. *)
Module Example.
Record t : Type := mk {
  instruction : string;
  input : Py.value;
  output : Py.value
}.
End Example.

(** [self._build_instruction(context)] on what [conv.get('context',
    'general')] gives: a key of a [dict] must be hashable, and only a
    [str] can be one of the keys of [context_specific]. *)
Definition build_instruction_of (context : Py.value) : Py.result string :=
  match context with
  | Py.VStr c => Py.Return (_build_instruction c)
  | Py.VList _ => Py.Raise (Py.TypeError "unhashable type: 'list'")
  | Py.VDict _ => Py.Raise (Py.TypeError "unhashable type: 'dict'")
  | _ =>
      Py.Return (base_instruction ++ nl ++ nl ++ "Context: "
                 ++ dict_get context_specific "general" EmptyString)
  end.

(** The rows one conversation adds, in the loops of
    [prepare_training_data]. *)
Definition rows_of (conv : Py.value) : Py.result (list Example.t) :=
  Py.rbind (Py.contains "conversations" conv) (fun present =>
  if present
  then
    Py.rbind (Py.rbind (Py.getitem conv "conversations") Py.iter) (fun turns =>
    Py.comprehension
      (fun turn =>
         Py.rbind (Py.rbind (Py.get conv "context" (Py.VStr "general"))
                     build_instruction_of) (fun instruction =>
         Py.rbind (Py.get turn "user_query" (Py.VStr EmptyString)) (fun input =>
         Py.rbind (Py.get turn "assistant_response" (Py.VStr EmptyString)) (fun output =>
         Py.Return (Example.mk instruction input output)))))
      turns)
  else Py.Return []).

(** [formatted_data], from the decoded file [conversations]. *)
Definition formatted_data (conversations : Py.value) : Py.result (list Example.t) :=
  Py.rbind (Py.iter conversations) (fun convs =>
  Py.rbind (Py.comprehension rows_of convs) (fun rows =>
  Py.Return (List.concat rows))).

End Training.

(** ** Notions the further properties are stated with *)

Module Notions.
Import PyStr Py Http Server.

(** [s] occurs in [t] as it is. *)
Definition occurs_in (s t : string) : Prop := exists a b, t = a ++ s ++ b.

(** The steps of two texts put one after the other. *)
Definition both (first second : option (list string)) : option (list string) :=
  match (match first with Some l => l | None => [] end
         ++ match second with Some l => l | None => [] end)%list with
  | [] => None
  | s :: r => Some (s :: r)
  end.

(** An entry of a model listing that names its model [name]. *)
Definition names_model (entry : value) (name : string) : Prop :=
  exists d, entry = VDict d /\ lookup "name" d = Some (VStr name).

(** An entry of a model listing that is a [dict] with no [name]. *)
Definition nameless (entry : value) : Prop :=
  exists d, entry = VDict d /\ lookup "name" d = None.

Definition is_dict (v : value) : Prop := exists d, v = VDict d.

Definition is_str (v : value) : bool :=
  match v with
  | VStr _ => true
  | _ => false
  end.

(** A conversation of the training file as the data preparation writes
    it: a dictionary whose [context], if any, is a string and whose
    [conversations], if any, is a list of dictionaries. *)
Definition conversation (conv : value) : Prop :=
  exists d,
    conv = VDict d
    /\ (lookup "context" d = None \/ exists c, lookup "context" d = Some (VStr c))
    /\ (lookup "conversations" d = None
        \/ exists turns,
             lookup "conversations" d = Some (VList turns) /\ Forall is_dict turns).

(** The turns of a conversation, its context and a field of a turn, with
    the defaults of the training script. *)
Definition turns_of (conv : value) : list value :=
  match conv with
  | VDict d =>
      match lookup "conversations" d with
      | Some (VList turns) => turns
      | _ => []
      end
  | _ => []
  end.

Definition context_of (conv : value) : string :=
  match conv with
  | VDict d =>
      match lookup "context" d with
      | Some (VStr c) => c
      | _ => "general"
      end
  | _ => "general"
  end.

Definition field_of (key : string) (turn : value) : value :=
  match turn with
  | VDict t =>
      match lookup key t with
      | Some v => v
      | None => VStr EmptyString
      end
  | _ => VStr EmptyString
  end.

Definition examples_of (conv : value) : list Training.Example.t :=
  map (fun turn =>
         Training.Example.mk (Training._build_instruction (context_of conv))
           (field_of "user_query" turn) (field_of "assistant_response" turn))
      (turns_of conv).

End Notions.

(** * Properties *)

(** ** Facts on [strip], [cut] and [split] *)

Module PyStrFacts.
Import PyStr StepSpec.

#[local] Arguments isspace : simpl never.
#[local] Arguments isdigit : simpl never.

Lemma rstrip_cons_nonspace (c : ascii) (r : string) :
  isspace c = false -> rstrip (String c r) = String c (rstrip r).
Proof.
  intros Hc. simpl. rewrite Hc. destruct (rstrip r); reflexivity.
Qed.

Lemma rstrip_idem (s : string) : rstrip (rstrip s) = rstrip s.
Proof.
  induction s as [|c r IH]; [reflexivity|].
  simpl. destruct (rstrip r) as [|d r'] eqn:E.
  - destruct (isspace c) eqn:Hc; [reflexivity|].
    simpl. now rewrite Hc.
  - simpl. simpl in IH. rewrite IH. reflexivity.
Qed.

Lemma lstrip_idem (s : string) : lstrip (lstrip s) = lstrip s.
Proof.
  induction s as [|c r IH]; [reflexivity|].
  simpl. destruct (isspace c) eqn:Hc; [exact IH|].
  simpl. now rewrite Hc.
Qed.

Lemma lstrip_rstrip (s : string) : lstrip (rstrip s) = rstrip (lstrip s).
Proof.
  induction s as [|c r IH]; [reflexivity|].
  destruct (isspace c) eqn:Hc.
  - replace (lstrip (String c r)) with (lstrip r) by (simpl; now rewrite Hc).
    rewrite <- IH. simpl. rewrite Hc.
    destruct (rstrip r); [reflexivity|]. simpl. now rewrite Hc.
  - rewrite (rstrip_cons_nonspace _ _ Hc). simpl. rewrite Hc.
    symmetry. apply (rstrip_cons_nonspace _ _ Hc).
Qed.

Lemma strip_lstrip (s : string) : strip (lstrip s) = strip s.
Proof. unfold strip. now rewrite lstrip_idem. Qed.

Lemma strip_rstrip (s : string) : strip (rstrip s) = strip s.
Proof. unfold strip. now rewrite lstrip_rstrip, rstrip_idem. Qed.

Lemma strip_idem (s : string) : strip (strip s) = strip s.
Proof. unfold strip at 2. now rewrite strip_rstrip, strip_lstrip. Qed.

Lemma rstrip_empty_strip (s : string) : rstrip s = EmptyString -> strip s = EmptyString.
Proof.
  intros H. unfold strip. rewrite <- lstrip_rstrip, H. reflexivity.
Qed.

(** A separator that is not white space survives [lstrip] and [rstrip]. *)
Lemma after_first_lstrip (sep : ascii) (s : string) :
  isspace sep = false ->
  after_first sep (lstrip s)
  = match cut sep s with Some (_, b) => b | None => lstrip s end.
Proof.
  intros Hsep. unfold after_first. induction s as [|c r IH]; [reflexivity|].
  simpl lstrip. destruct (isspace c) eqn:Hc.
  - rewrite IH. simpl. destruct (Ascii.eqb c sep) eqn:E.
    + apply Ascii.eqb_eq in E. congruence.
    + destruct (cut sep r) as [[a b]|]; reflexivity.
  - destruct (cut sep (String c r)) as [[a b]|]; reflexivity.
Qed.

Lemma cut_rstrip (sep : ascii) (s : string) :
  isspace sep = false ->
  cut sep (rstrip s)
  = match cut sep s with Some (a, b) => Some (a, rstrip b) | None => None end.
Proof.
  intros Hsep. induction s as [|c r IH]; [reflexivity|].
  simpl cut at 2. destruct (Ascii.eqb c sep) eqn:E.
  - apply Ascii.eqb_eq in E. subst c.
    rewrite (rstrip_cons_nonspace _ _ Hsep). simpl. now rewrite Ascii.eqb_refl.
  - simpl rstrip. destruct (rstrip r) as [|d r'] eqn:Er.
    + simpl in IH. destruct (cut sep r) as [[a b]|]; [discriminate|].
      destruct (isspace c); [reflexivity|]. simpl. now rewrite E.
    + simpl. rewrite E. simpl in IH. rewrite IH.
      destruct (cut sep r) as [[a b]|]; reflexivity.
Qed.

Lemma strip_after_first_strip (sep : ascii) (s : string) :
  isspace sep = false ->
  strip (after_first sep (strip s)) = strip (after_first sep s).
Proof.
  intros Hsep. unfold strip at 2.
  assert (R : forall x, strip (after_first sep (rstrip x)) = strip (after_first sep x)).
  { intros x. unfold after_first. rewrite (cut_rstrip _ _ Hsep).
    destruct (cut sep x) as [[a b]|]; apply strip_rstrip. }
  rewrite R, (after_first_lstrip _ _ Hsep). unfold after_first.
  destruct (cut sep s) as [[a b]|]; [reflexivity|apply strip_lstrip].
Qed.

(** Lengths only shrink. *)
Lemma length_lstrip (s : string) : String.length (lstrip s) <= String.length s.
Proof.
  induction s as [|c r IH]; simpl; [lia|]. destruct (isspace c); simpl; lia.
Qed.

Lemma length_rstrip (s : string) : String.length (rstrip s) <= String.length s.
Proof.
  induction s as [|c r IH]; simpl; [lia|].
  destruct (rstrip r); [destruct (isspace c)|]; simpl in *; lia.
Qed.

Lemma length_strip (s : string) : String.length (strip s) <= String.length s.
Proof.
  unfold strip. pose proof (length_rstrip (lstrip s)). pose proof (length_lstrip s). lia.
Qed.

Lemma length_cut (sep : ascii) (s a b : string) :
  cut sep s = Some (a, b) -> String.length b < String.length s.
Proof.
  revert a. induction s as [|c r IH]; intros a; simpl; [discriminate|].
  destruct (Ascii.eqb c sep).
  - intros [= <- <-]. lia.
  - destruct (cut sep r) as [[a' b']|]; [|discriminate].
    intros [= <- <-]. specialize (IH a' eq_refl). lia.
Qed.

Lemma length_after_first (sep : ascii) (s : string) :
  String.length (after_first sep s) <= String.length s.
Proof.
  unfold after_first. destruct (cut sep s) as [[a b]|] eqn:E; [|lia].
  apply length_cut in E. lia.
Qed.

Lemma length_after_first_occurs (sep : ascii) (s : string) :
  occurs sep s = true -> String.length (after_first sep s) < String.length s.
Proof.
  unfold after_first, occurs. destruct (cut sep s) as [[a b]|] eqn:E; [|discriminate].
  intros _. now apply length_cut in E.
Qed.

Lemma after_first_absent (sep : ascii) (s : string) :
  occurs sep s = false -> after_first sep s = s.
Proof.
  unfold after_first, occurs. destruct (cut sep s) as [[a b]|]; [discriminate|reflexivity].
Qed.

(** A character absent from a string is absent from what is cut out of it. *)
Lemma cut_cons_None (c0 c : ascii) (r : string) :
  cut c0 (String c r) = None <-> Ascii.eqb c c0 = false /\ cut c0 r = None.
Proof.
  simpl. destruct (Ascii.eqb c c0); [split; [discriminate|intros [? _]; discriminate]|].
  destruct (cut c0 r) as [[a b]|]; split; try discriminate; auto.
  intros [_ ?]; discriminate.
Qed.

Lemma absent_lstrip (c0 : ascii) (s : string) :
  cut c0 s = None -> cut c0 (lstrip s) = None.
Proof.
  induction s as [|c r IH]; [reflexivity|]. intros H.
  cbn [lstrip]. destruct (isspace c); [|exact H].
  apply IH. now apply cut_cons_None in H.
Qed.

Lemma absent_rstrip (c0 : ascii) (s : string) :
  cut c0 s = None -> cut c0 (rstrip s) = None.
Proof.
  induction s as [|c r IH]; [reflexivity|]. intros H.
  apply cut_cons_None in H. destruct H as [Hc Hr]. specialize (IH Hr).
  cbn [rstrip]. destruct (rstrip r) as [|d r'].
  - destruct (isspace c); [reflexivity|]. apply cut_cons_None. now split.
  - apply cut_cons_None. now split.
Qed.

Lemma absent_strip (c0 : ascii) (s : string) :
  cut c0 s = None -> cut c0 (strip s) = None.
Proof. intros H. unfold strip. now apply absent_rstrip, absent_lstrip. Qed.

Lemma absent_after_first (c0 sep : ascii) (s : string) :
  cut c0 s = None -> cut c0 (after_first sep s) = None.
Proof.
  unfold after_first. induction s as [|c r IH]; [reflexivity|]. intros H.
  pose proof H as H'. apply cut_cons_None in H'. destruct H' as [Hc Hr].
  cbn [cut]. destruct (Ascii.eqb c sep); [exact Hr|].
  specialize (IH Hr). destruct (cut sep r) as [[a b]|]; [exact IH|exact H].
Qed.

(** The pieces of [split] do not hold the separator. *)
Lemma split_pieces_absent (sep : ascii) (s : string) :
  cut sep (fst (split_pieces sep s)) = None
  /\ Forall (fun x => cut sep x = None) (snd (split_pieces sep s)).
Proof.
  induction s as [|c r [IH1 IH2]]; [split; [reflexivity|constructor]|].
  cbn [split_pieces]. destruct (split_pieces sep r) as [h t]. cbn [fst snd] in *.
  destruct (Ascii.eqb c sep) eqn:E; cbn [fst snd].
  - split; [reflexivity|now constructor].
  - split; [|exact IH2]. apply cut_cons_None. now split.
Qed.

Lemma split_absent (sep : ascii) (s : string) :
  Forall (fun x => cut sep x = None) (split sep s).
Proof.
  unfold split. pose proof (split_pieces_absent sep s) as [H1 H2].
  destruct (split_pieces sep s) as [h t]. now constructor.
Qed.

Lemma split_pieces_no_sep (sep : ascii) (x : string) :
  cut sep x = None -> split_pieces sep x = (x, []).
Proof.
  induction x as [|c r IH]; [reflexivity|]. intros H.
  apply cut_cons_None in H. destruct H as [Hc Hr].
  cbn [split_pieces]. rewrite (IH Hr), Hc. reflexivity.
Qed.

Lemma split_pieces_app (sep : ascii) (x y : string) :
  cut sep x = None ->
  split_pieces sep (x ++ String sep y) = (x, split sep y).
Proof.
  induction x as [|c r IH]; intros H.
  - cbn [append split_pieces]. unfold split.
    destruct (split_pieces sep y) as [h t]. now rewrite Ascii.eqb_refl.
  - apply cut_cons_None in H. destruct H as [Hc Hr].
    cbn [append split_pieces]. rewrite (IH Hr), Hc. reflexivity.
Qed.

(** Joining lines that hold no line feed and splitting again is the identity. *)
Lemma split_join (l : list string) :
  l <> [] -> Forall (fun x => cut LF x = None) l -> split LF (join nl l) = l.
Proof.
  induction l as [|x r IH]; [congruence|]. intros _ H.
  inversion H as [|? ? Hx Hr]; subst. destruct r as [|y r'].
  - cbn [join]. unfold split. now rewrite (split_pieces_no_sep _ _ Hx).
  - change (join nl (x :: y :: r')) with (x ++ String LF (join nl (y :: r'))).
    unfold split at 1. rewrite (split_pieces_app _ _ _ Hx).
    rewrite IH; [reflexivity|discriminate|exact Hr].
Qed.

Lemma item_last_split1 (sep : ascii) (s : string) :
  item_last (split1 sep s) = after_first sep s.
Proof.
  unfold split1, after_first. destruct (cut sep s) as [[a b]|]; reflexivity.
Qed.

End PyStrFacts.

(** ** [extract_steps] against the specification *)

Module StepFacts.
Import PyStr Steps StepSpec PyStrFacts.

#[local] Arguments isspace : simpl never.
#[local] Arguments isdigit : simpl never.

Lemma loop_body_contribution (steps : list string) (line : string) :
  loop_body steps line = (steps ++ contribution isdigit line)%list.
Proof.
  unfold loop_body, contribution, qualifies, cleaned, trim, step_led.
  destruct (strip line) as [|c0 r] eqn:Et.
  - simpl. now rewrite app_nil_r.
  - cbn [first_char_is]. destruct (isdigit c0) eqn:Hd.
    + cbn [orb]. rewrite !item_last_split1.
      rewrite (strip_after_first_strip ")"%char) by reflexivity.
      destruct (truthy _); [reflexivity|now rewrite app_nil_r].
    + cbn [orb]. destruct (startswith (lower (String c0 r)) "step").
      * rewrite item_last_split1.
        destruct (truthy _); [reflexivity|now rewrite app_nil_r].
      * now rewrite app_nil_r.
Qed.

Lemma fold_loop_body (lines steps : list string) :
  fold_left loop_body lines steps
  = (steps ++ flat_map (contribution isdigit) lines)%list.
Proof.
  revert steps. induction lines as [|line lines IH]; intros steps; simpl.
  - now rewrite app_nil_r.
  - rewrite IH, loop_body_contribution, <- app_assoc. reflexivity.
Qed.

Lemma found_contribution (digit : ascii -> bool) (lines : list string) :
  filter truthy (map (cleaned digit) (filter (qualifies digit) (map trim lines)))
  = flat_map (contribution digit) lines.
Proof.
  induction lines as [|line lines IH]; [reflexivity|].
  simpl. unfold contribution at 1.
  destruct (qualifies digit (trim line)); simpl; [|exact IH].
  destruct (truthy (cleaned digit (trim line))); simpl; now rewrite IH.
Qed.

Lemma extract_steps_flat (text : string) :
  extract_steps text
  = match flat_map (contribution isdigit) (split LF text) with
    | [] => None
    | s :: r => Some (s :: r)
    end.
Proof.
  unfold extract_steps. rewrite fold_loop_body. cbn [app].
  destruct (flat_map _ _); reflexivity.
Qed.

Lemma cleaned_absent (digit : ascii -> bool) (c0 : ascii) (t : string) :
  cut c0 t = None -> cut c0 (cleaned digit t) = None.
Proof.
  intros H. unfold cleaned, trim.
  destruct (first_char_is digit t); now repeat (apply absent_strip || apply absent_after_first).
Qed.

Lemma cleaned_trimmed (digit : ascii -> bool) (t : string) :
  strip (cleaned digit t) = cleaned digit t.
Proof.
  unfold cleaned, trim. destruct (first_char_is digit t); apply strip_idem.
Qed.

Lemma contribution_is_step (digit : ascii -> bool) (line : string) :
  cut LF line = None -> Forall is_step (contribution digit line).
Proof.
  intros H. unfold contribution.
  destruct (qualifies digit (trim line)); [|constructor].
  destruct (truthy (cleaned digit (trim line))) eqn:Et; constructor; [|constructor].
  repeat split; [apply cleaned_trimmed|exact Et|].
  apply cleaned_absent, absent_strip, H.
Qed.

Lemma flat_contribution_is_step (digit : ascii -> bool) (lines : list string) :
  Forall (fun x => cut LF x = None) lines ->
  Forall is_step (flat_map (contribution digit) lines).
Proof.
  induction 1 as [|line lines Hl _ IH]; [constructor|].
  cbn [flat_map]. apply Forall_app. split; [now apply contribution_is_step|exact IH].
Qed.

Lemma extract_steps_is_step (text : string) (steps : list string) :
  extract_steps text = Some steps -> steps <> [] /\ Forall is_step steps.
Proof.
  rewrite extract_steps_flat.
  pose proof (flat_contribution_is_step isdigit _ (split_absent LF text)) as H.
  destruct (flat_map _ _) as [|s r]; [discriminate|].
  intros [= <-]. split; [discriminate|exact H].
Qed.

Lemma contribution_length (digit : ascii -> bool) (line : string) :
  List.length (contribution digit line) <= 1.
Proof.
  unfold contribution. destruct (qualifies _ _); [|simpl; lia].
  destruct (truthy _); simpl; lia.
Qed.

(** A trimmed line is its own contribution exactly when it is a step line
    with no marker left. *)
Lemma contribution_fixed (s : string) :
  strip s = s -> (contribution isdigit s = [s] <-> marker_free s = true).
Proof.
  intros Hs. unfold contribution, qualifies, cleaned, marker_free, trim.
  rewrite Hs. destruct (first_char_is isdigit s) eqn:Hd; cbn [orb].
  - destruct (occurs "." s) eqn:Edot; cbn [negb andb].
    + split; [|discriminate]. intros H.
      assert (E : strip (after_first ")" (after_first "." s)) = s)
        by (destruct (truthy _); [now injection H|discriminate]).
      pose proof (length_after_first_occurs _ _ Edot).
      pose proof (length_after_first ")" (after_first "." s)).
      pose proof (length_strip (after_first ")" (after_first "." s))).
      rewrite E in *. lia.
    + rewrite (after_first_absent _ _ Edot).
      destruct (occurs ")" s) eqn:Epar; cbn [negb].
      * split; [|discriminate]. intros H.
        assert (E : strip (after_first ")" s) = s)
          by (destruct (truthy _); [now injection H|discriminate]).
        pose proof (length_after_first_occurs _ _ Epar).
        pose proof (length_strip (after_first ")" s)).
        rewrite E in *. lia.
      * rewrite (after_first_absent _ _ Epar), Hs.
        destruct s; [discriminate|]. split; reflexivity.
  - destruct (step_led s) eqn:Hstep; cbn [andb]; [|split; discriminate].
    destruct (occurs ":" s) eqn:Ecol; cbn [negb].
    + split; [|discriminate]. intros H.
      assert (E : strip (after_first ":" s) = s)
        by (destruct (truthy _); [now injection H|discriminate]).
      pose proof (length_after_first_occurs _ _ Ecol).
      pose proof (length_strip (after_first ":" s)).
      rewrite E in *. lia.
    + rewrite (after_first_absent _ _ Ecol), Hs.
      destruct s; [discriminate|]. split; reflexivity.
Qed.

Lemma flat_map_length_le {A : Type} (f : A -> list A) (l : list A) :
  (forall x, List.length (f x) <= 1) -> List.length (flat_map f l) <= List.length l.
Proof.
  intros Hf. induction l as [|x l IH]; simpl; [lia|].
  rewrite length_app. specialize (Hf x). lia.
Qed.

Lemma flat_map_fixed {A : Type} (f : A -> list A) (l : list A) :
  (forall x, List.length (f x) <= 1) ->
  (flat_map f l = l <-> Forall (fun x => f x = [x]) l).
Proof.
  intros Hf. induction l as [|x l IH]; [split; [constructor|reflexivity]|].
  cbn [flat_map]. split.
  - intros H. pose proof (Hf x) as Hx. pose proof (flat_map_length_le f l Hf) as Hl.
    destruct (f x) as [|y [|z r]] eqn:Ex; simpl in Hx; try lia.
    + simpl in H. rewrite H in Hl. simpl in Hl. lia.
    + simpl in H. injection H as -> H. constructor; [exact Ex|now apply IH].
  - intros H. inversion H as [|? ? Hx Hl]; subst. rewrite Hx.
    apply IH in Hl. simpl. now rewrite Hl.
Qed.

End StepFacts.

Import PyStr Steps StepSpec.

(** C1 (as amended): for every input, [extract_steps] splits the text
    into lines and trims each; a line qualifies iff its first character
    is a digit in the sense of [str.isdigit] or its lowercased form starts
    with [step]; a digit-led line loses its text up to and including the
    first [.], then up to and including the first [)], and is trimmed; a
    step-led line loses its text up to and including the first [:] and is
    trimmed; empty cleaned forms are dropped; the result is [None] iff
    nothing is left and the steps in input order otherwise, never the
    empty list. *)
Theorem extract_steps_refines_spec (text : string) :
  extract_steps text = StepSpec.extract isdigit text
  /\ extract_steps text <> Some [].
Proof.
  rewrite StepFacts.extract_steps_flat. unfold StepSpec.extract.
  rewrite StepFacts.found_contribution.
  destruct (flat_map _ _); split; (reflexivity || discriminate).
Qed.

(** C1, as stated, fails on a line led by a superscript two: it is a digit
    for [str.isdigit], so the line is a step, yet it is no decimal digit. *)
Lemma extract_steps_superscript_digit :
  extract_steps (String "178"%char "x") = Some [String "178"%char "x"]
  /\ StepSpec.extract isdecimal (String "178"%char "x") = None.
Proof. split; reflexivity. Qed.

(** C7: the three examples of the specification. *)
Theorem extract_steps_examples :
  extract_steps ("1. Open app" ++ nl ++ "2. Tap icon" ++ nl)
  = Some ["Open app"; "Tap icon"]
  /\ extract_steps ("Step 1: Do X" ++ nl ++ "Step 2: Do Y") = Some ["Do X"; "Do Y"]
  /\ extract_steps "Just a sentence." = None.
Proof. repeat split; reflexivity. Qed.

(** C9 (as amended): when [extract_steps] finds steps, extracting again
    from their newline-join gives the same steps iff every step is itself
    a step line with no marker left: digit-led with neither [.] nor [)],
    or step-led with no [:]. *)
Theorem extract_steps_again (text : string) (steps : list string) :
  extract_steps text = Some steps ->
  (extract_steps (join nl steps) = Some steps
   <-> forallb marker_free steps = true).
Proof.
  intros H. apply StepFacts.extract_steps_is_step in H. destruct H as [Hne Hst].
  rewrite StepFacts.extract_steps_flat, PyStrFacts.split_join.
  - rewrite forallb_forall, <- Forall_forall.
    pose proof (StepFacts.flat_map_fixed (contribution isdigit) steps
                  (StepFacts.contribution_length isdigit)) as Hfix.
    assert (Hm : Forall (fun x => contribution isdigit x = [x]) steps
                 <-> Forall (fun x => marker_free x = true) steps).
    { clear Hfix Hne. induction Hst as [|s r [Hs _] _ IH].
      - split; constructor.
      - split; intros HF; inversion HF; subst; constructor;
          try (now apply IH); now apply (StepFacts.contribution_fixed s Hs). }
    rewrite <- Hm, <- Hfix. destruct (flat_map _ _) as [|s r] eqn:E.
    + split; [discriminate|]. intros <-. congruence.
    + split; [now intros [= <-]|now intros <-].
  - exact Hne.
  - eapply Forall_impl; [|exact Hst]. now intros s (_ & _ & ?).
Qed.

Lemma extract_steps_again_witness :
  extract_steps (join nl ["2 eggs"; "Step two"]) = Some ["2 eggs"; "Step two"]
  <-> forallb marker_free ["2 eggs"; "Step two"] = true.
Proof.
  apply (extract_steps_again ("1. 2 eggs" ++ nl ++ "Step 1: Step two")).
  reflexivity.
Defined.

(** C9, as stated, fails: a numbered line yields a step that, fed back
    alone, is no step line any more. *)
Lemma extract_steps_not_idempotent :
  extract_steps "1. Open app" = Some ["Open app"]
  /\ extract_steps (join nl ["Open app"]) = None.
Proof. split; reflexivity. Qed.

(** ** The Ollama client *)

Module ClientFacts.
Import PyStr Py Http Server ClientSpec.

Lemma startswith_app (x b : string) : startswith (x ++ b) x = true.
Proof.
  induction x as [|c r IH]; [reflexivity|]. simpl. now rewrite Ascii.eqb_refl.
Qed.

Lemma contains_app (a x b : string) : PyStr.contains x (a ++ x ++ b) = true.
Proof.
  induction a as [|c r IH].
  - cbn [append]. pose proof (startswith_app x b) as H.
    destruct (x ++ b); cbn [PyStr.contains]; now rewrite H.
  - cbn [append PyStr.contains]. rewrite IH. apply orb_true_r.
Qed.

Lemma contains_app_r (a x s : string) :
  PyStr.contains x s = true -> PyStr.contains x (a ++ s) = true.
Proof.
  intros H. induction a as [|c r IH]; [exact H|].
  cbn [append PyStr.contains]. rewrite IH. apply orb_true_r.
Qed.

Lemma startswith_refl (x : string) : startswith x x = true.
Proof.
  induction x as [|c r IH]; [reflexivity|]. simpl. now rewrite Ascii.eqb_refl.
Qed.

Lemma contains_refl (x : string) : PyStr.contains x x = true.
Proof.
  pose proof (startswith_refl x) as H. destruct x; cbn [PyStr.contains]; now rewrite H.
Qed.

Lemma any_true_iff {A : Type} (f : A -> result bool) (l : list A) (b : bool) :
  any f l = Return b -> (b = true <-> exists x, In x l /\ f x = Return true).
Proof.
  revert b. induction l as [|x l IH]; intros b; cbn [any].
  - intros [= <-]. split; [discriminate|]. now intros (x & [] & _).
  - destruct (f x) as [[|]|e] eqn:Ex; cbn [rbind]; [| |discriminate].
    + intros [= <-]. split; [|reflexivity]. intros _. exists x. split; [now left|exact Ex].
    + intros H. rewrite (IH b H). split.
      * intros (y & Hy & Hfy). exists y. split; [now right|exact Hfy].
      * intros (y & [<-|Hy] & Hfy); [congruence|]. exists y. now split.
Qed.

Lemma any_names (needle : string) (names : list string) :
  any (Py.contains needle) (map VStr names)
  = Return (existsb (PyStr.contains needle) names).
Proof.
  induction names as [|n names IH]; [reflexivity|].
  cbn [map any Py.contains rbind existsb].
  destruct (PyStr.contains needle n); [reflexivity|exact IH].
Qed.

Section Client.

Variable transport : Log -> Request -> result Response.
Variable status_message : Response -> string.
Variable now : string.
Variable settings : Settings.

#[local] Abbreviation check_health := (check_health transport status_message).
#[local] Abbreviation generate_response := (generate_response transport status_message).
#[local] Abbreviation analyze_query := (analyze_query transport status_message now settings).
#[local] Abbreviation raised := (raised status_message).

(** The run of [check_health]: one request, then the dictionary of the
    outcome. *)
Lemma check_health_run (self : OllamaClient) (log : Log) :
  check_health self log
  = (Return match raised (transport log (tags_request self)),
                  transport log (tags_request self) with
            | Some e, _ => unhealthy (str_exc e)
            | None, Raise e => unhealthy (str_exc e)
            | None, Return r =>
                match rbind (json r) listing with
                | Return (models, gemma) => healthy models gemma
                | Raise e => unhealthy (str_exc e)
                end
            end,
     (log ++ [tags_request self])%list).
Proof.
  unfold Server.check_health, try_except, bind, client_send, ClientSpec.raised.
  fold (tags_request self).
  destruct (transport log (tags_request self)) as [r|e]; [|reflexivity].
  unfold raise_for_status. destruct (is_success r); [|reflexivity].
  unfold ret, lift, listing. destruct (json r) as [data|e]; [|reflexivity].
  cbn [rbind]. destruct (rbind (get data "models" (VList [])) iter) as [items|e];
    [|reflexivity].
  cbn [rbind]. destruct (comprehension _ items) as [models|e]; [|reflexivity].
  cbn [rbind]. destruct (any _ models) as [gemma|e]; reflexivity.
Qed.

(** The run of [generate_response]: one request, then the dictionary of
    the outcome. *)
Lemma generate_response_run (self : OllamaClient) (model prompt : string)
  (images : option (list string)) (options : option (list (string * value)))
  (log : Log) :
  generate_response self model prompt images options log
  = (Return (generation status_message
               (transport log (generate_request self model prompt images options))),
     (log ++ [generate_request self model prompt images options])%list).
Proof.
  unfold Server.generate_response, try_except, bind, client_send, generation,
    ClientSpec.raised.
  assert (Hp : (if truthy_list images
                then {| payload_model := model; payload_prompt := prompt;
                        payload_stream := false;
                        payload_options := or_dict options default_options;
                        payload_images := images |}
                else {| payload_model := model; payload_prompt := prompt;
                        payload_stream := false;
                        payload_options := or_dict options default_options;
                        payload_images := None |})
               = payload_of model prompt images options).
  { unfold payload_of. destruct (truthy_list images); reflexivity. }
  cbn [payload_model payload_prompt payload_stream payload_options].
  rewrite Hp. fold (generate_request self model prompt images options).
  destruct (transport log _) as [r|e].
  - unfold raise_for_status. destruct (is_success r).
    + unfold ret, lift. destruct (json r) as [data|e]; [reflexivity|].
      destruct e; reflexivity.
    + reflexivity.
  - destruct e; reflexivity.
Qed.

Lemma answer_status (request : AnalysisRequest.t) (data : value) :
  (exists a, answer now settings request data = Return a)
  \/ answer now settings request data = Raise (HTTPException 500 "Internal server error").
Proof.
  unfold answer. destruct (rbind _ _) as [[g st]|e]; [left; eauto|now right].
Qed.

(** The run of [analyze_query]: the size check, then one request, then
    the answer or the error. *)
Lemma analyze_query_run (request : AnalysisRequest.t) (log : Log) :
  analyze_query request log
  = if too_large settings request
    then (Raise (HTTPException 413 "Image too large"), log)
    else
      (match raised (transport log (analyze_request settings request)),
             transport log (analyze_request settings request) with
       | Some e, _ | None, Raise e =>
           Raise (HTTPException 500 ("Failed to generate response: " ++ failure_reason e))
       | None, Return r =>
           match json r with
           | Return data => answer now settings request data
           | Raise e =>
               Raise (HTTPException 500 ("Failed to generate response: " ++ failure_reason e))
           end
       end,
       (log ++ [analyze_request settings request])%list).
Proof.
  unfold Server.analyze_query, try_except. unfold bind at 1.
  fold (too_large settings request). destruct (too_large settings request);
    [reflexivity|].
  unfold ret at 1. unfold bind at 1. rewrite generate_response_run.
  fold (analyze_request settings request).
  unfold generation, ClientSpec.raised.
  destruct (transport log _) as [r|e]; [|reflexivity].
  destruct (is_success r); [|reflexivity].
  destruct (json r) as [data|e]; [|reflexivity].
  cbv [bind ret lift item raise logger_error answer Success negb
       Generated.success Generated.data Generated.error].
  destruct (get data "response" (VStr EmptyString)) as [v|e] eqn:Eg; cbn [rbind].
  - destruct (call_extract_steps v) as [[g st]|e] eqn:Ec; [reflexivity|].
    destruct v; try discriminate; injection Ec as <-; reflexivity.
  - destruct data; try (injection Eg as <-; reflexivity).
    cbn [get] in Eg. destruct (lookup _ _); discriminate.
Qed.

End Client.

End ClientFacts.

(** Listings whose entries name their models, or not. *)

Module ClientProps.
Import PyStr Py Http Server ClientSpec Notions.

Lemma names_comprehension (entries : list value) (names : list string) :
  Forall2 names_model entries names ->
  comprehension (fun model => getitem model "name") entries = Return (map VStr names).
Proof.
  induction 1 as [|entry name entries names (d & -> & Hd) _ IH]; [reflexivity|].
  cbn [comprehension getitem]. rewrite Hd. cbn [rbind]. rewrite IH. reflexivity.
Qed.

Lemma nameless_comprehension (entries : list value) :
  Forall is_dict entries ->
  Exists nameless entries ->
  comprehension (fun model => getitem model "name") entries = Raise (KeyError "name").
Proof.
  intros Hd He. induction He as [entry entries (d & -> & Hn)|entry entries _ IH].
  - cbn [comprehension getitem]. now rewrite Hn.
  - inversion Hd as [|? ? (d & ->) Hd']; subst. cbn [comprehension getitem].
    destruct (lookup "name" d); [|reflexivity]. cbn [rbind]. now rewrite (IH Hd').
Qed.

End ClientProps.

(** ** The claims on the client and on [/api/analyze] *)

Import Py Http Server ClientSpec.

Section Claims.

Variable transport : Log -> Request -> result Response.
Variable status_message : Response -> string.
Variable now : string.
Variable settings : Settings.

#[local] Abbreviation check_health := (check_health transport status_message).
#[local] Abbreviation generate_response := (generate_response transport status_message).
#[local] Abbreviation analyze_query := (analyze_query transport status_message now settings).
#[local] Abbreviation raised := (raised status_message).

(** When the size check passes the client never sees a 413. *)
Lemma analyze_query_passed (request : AnalysisRequest.t) (log : Log) :
  too_large settings request = false ->
  http_status (fst (analyze_query request log)) <> 413%Z
  /\ snd (analyze_query request log) = (log ++ [analyze_request settings request])%list.
Proof.
  intros H. rewrite ClientFacts.analyze_query_run, H. cbn [fst snd]. split; [|reflexivity].
  destruct (raised _) as [e|]; [cbn; lia|].
  destruct (transport log _) as [r|e]; [|cbn; lia].
  destruct (json r) as [data|e]; [|cbn; lia].
  destruct (ClientFacts.answer_status now settings request data) as [[a ->]| ->]; cbn; lia.
Qed.

(** C2: the size check compares the length of the encoded image with the
    ceiling, [10 * 1024 * 1024] by default, before any backend call: an
    image of exactly the ceiling passes (no 413, and the backend is
    called), one longer by one is refused with 413 and the backend is not
    called. *)
Theorem image_size_ceiling (request : AnalysisRequest.t) (image : string) (log : Log) :
  AnalysisRequest.image request = Some image ->
  (0 <= max_image_size settings)%Z ->
  max_image_size Settings_defaults = (10 * 1024 * 1024)%Z
  /\ (len image = max_image_size settings ->
      http_status (fst (analyze_query request log)) <> 413%Z
      /\ snd (analyze_query request log)
         = (log ++ [analyze_request settings request])%list)
  /\ (len image = (max_image_size settings + 1)%Z ->
      analyze_query request log = (Raise (HTTPException 413 "Image too large"), log)).
Proof.
  intros Hi Hc. split; [reflexivity|]. split; intros Hl.
  - apply analyze_query_passed. unfold too_large, if_truthy. rewrite Hi.
    destruct (truthy image); [|reflexivity]. rewrite Z.gtb_ltb. apply Z.ltb_ge. lia.
  - rewrite ClientFacts.analyze_query_run. unfold too_large, if_truthy. rewrite Hi.
    destruct image as [|c r]; [cbn in Hl; lia|]. cbn [truthy].
    replace (len (String c r) >? max_image_size settings)%Z with true; [reflexivity|].
    symmetry. apply Z.gtb_lt. lia.
Qed.

(** C3: a call of [generate_response] hands exactly one request to the
    client and returns a dictionary, whatever the transport does; when
    the request raises, the status is not 2xx or the body does not decode,
    the dictionary is a failure, and for a status that is not 2xx its
    reason holds the status code and the body. *)
Theorem generate_response_single_attempt (self : OllamaClient) (model prompt : string)
  (images : option (list string)) (options : option (list (string * value)))
  (log : Log) :
  exists g : Generated.t,
    generate_response self model prompt images options log
    = (Return g, (log ++ [generate_request self model prompt images options])%list)
    /\ (forall e,
          raised (transport log (generate_request self model prompt images options))
          = Some e ->
          g = Failure (failure_reason e))
    /\ (forall r,
          transport log (generate_request self model prompt images options) = Return r ->
          is_success r = false ->
          exists reason,
            g = Failure reason
            /\ PyStr.contains (str_int (status_code r)) reason = true
            /\ PyStr.contains (text r) reason = true).
Proof.
  eexists. split; [apply ClientFacts.generate_response_run|]. split.
  - intros e He. unfold generation. now rewrite He.
  - intros r Hr Hs. unfold generation, ClientSpec.raised. rewrite Hr, Hs.
    eexists. split; [reflexivity|]. cbn [failure_reason]. split.
    + apply (ClientFacts.contains_app "Ollama error: ").
    + do 3 apply ClientFacts.contains_app_r. apply ClientFacts.contains_refl.
Qed.

(** C4 (as amended): when [generate_response] returns a failure, the
    client of [/api/analyze] receives a 500 whose detail is the fixed
    prefix followed by the failure's reason as it is. *)
Theorem analyze_query_backend_failure (request : AnalysisRequest.t) (log log' : Log)
  (g : Generated.t) :
  too_large settings request = false ->
  generate_response (ollama_client settings)
    (or_str (AnalysisRequest.model request) (default_model settings))
    (system_prompt request)
    (if_truthy (AnalysisRequest.image request) (fun image => Some [image]) None)
    None log = (Return g, log') ->
  Generated.success g = false ->
  exists reason,
    Generated.error g = Some reason
    /\ analyze_query request log
       = (Raise (HTTPException 500 ("Failed to generate response: " ++ reason)), log')
    /\ http_status (fst (analyze_query request log)) = 500%Z.
Proof.
  intros Hsize Hg Hfail. rewrite ClientFacts.generate_response_run in Hg.
  injection Hg as <- <-. fold (analyze_request settings request) in Hfail |- *.
  rewrite ClientFacts.analyze_query_run, Hsize. unfold generation in Hfail |- *.
  destruct (raised _) as [e|]; [exists (failure_reason e); now repeat split|].
  destruct (transport log _) as [r|e]; [|exists (failure_reason e); now repeat split].
  destruct (json r) as [data|e]; [discriminate|].
  exists (failure_reason e); now repeat split.
Qed.

(** C5: [check_health] never raises: it hands one request to the client
    and returns a dictionary; when the request raises, the status is not
    2xx, the body does not decode, or the decoded body is no listing, the
    dictionary is the unhealthy one: no model, no Gemma, and the text of
    the cause as its error. *)
Theorem check_health_never_raises (self : OllamaClient) (log : Log) :
  (exists h, check_health self log = (Return h, (log ++ [tags_request self])%list))
  /\ (forall e,
        raised (transport log (tags_request self)) = Some e ->
        check_health self log
        = (Return (unhealthy (str_exc e)), (log ++ [tags_request self])%list))
  /\ (forall r data e,
        transport log (tags_request self) = Return r ->
        is_success r = true ->
        json r = Return data ->
        listing data = Raise e ->
        check_health self log
        = (Return (unhealthy (str_exc e)), (log ++ [tags_request self])%list)).
Proof.
  rewrite ClientFacts.check_health_run. split; [eauto|]. split.
  - intros e ->. reflexivity.
  - intros r data e Hr Hs Hj Hl. unfold ClientSpec.raised.
    rewrite Hr, Hs, Hj. cbn [rbind]. now rewrite Hl.
Qed.

(** C6 (as amended): the answer of a query that succeeds carries the
    confidence 0.9, and as its model the one of the request when the
    request names one that is not the empty string, the configured default
    otherwise. *)
Theorem analyze_query_answer (request : AnalysisRequest.t) (log log' : Log)
  (a : AnalysisResponse.t) :
  analyze_query request log = (Return a, log') ->
  AnalysisResponse.confidence a = 0.9%float
  /\ AnalysisResponse.model_used a
     = match AnalysisRequest.model request with
       | Some (String c m) => String c m
       | Some EmptyString | None => default_model settings
       end.
Proof.
  rewrite ClientFacts.analyze_query_run.
  destruct (too_large settings request); [discriminate|].
  destruct (raised _) as [e|]; [discriminate|].
  destruct (transport log _) as [r|e]; [|discriminate].
  destruct (json r) as [data|e]; [|discriminate].
  unfold answer. destruct (rbind _ _) as [[guidance steps]|e]; [|discriminate].
  intros [= <- _]. cbn. split; [reflexivity|].
  destruct (AnalysisRequest.model request) as [[|c m]|]; reflexivity.
Qed.

Lemma listing_any (data : value) (models : list value) (gemma : bool) :
  listing data = Return (models, gemma) ->
  any (Py.contains "gemma3") models = Return gemma.
Proof.
  unfold listing. destruct (rbind (get data "models" (VList [])) iter) as [items|e];
    [|discriminate].
  cbn [rbind]. destruct (comprehension _ items) as [ms|e]; [|discriminate].
  cbn [rbind]. destruct (any _ ms) as [b|e] eqn:E; [|discriminate].
  cbn [rbind]. now intros [= <- <-].
Qed.

Lemma listing_names (data : value) (models : list value) (gemma : bool) :
  listing data = Return (models, gemma) -> reported_names data = Return models.
Proof.
  unfold listing, reported_names.
  destruct (rbind (get data "models" (VList [])) iter) as [items|e]; [|discriminate].
  cbn [rbind]. destruct (comprehension _ items) as [ms|e]; [|discriminate].
  cbn [rbind]. destruct (any _ ms) as [b|e]; [|discriminate].
  cbn [rbind]. now intros [= <- _].
Qed.

(** C8: a health check that succeeds got a 2xx response whose body
    decodes, and reports the names of that body's listing; its readiness
    flag is true iff the target family is found in one of these names;
    the names being strings, iff one of them has [gemma3] as a substring,
    letter case included. *)
Theorem gemma_available_iff (self : OllamaClient) (log log' : Log) (h : Health.t) :
  check_health self log = (Return h, log') ->
  Health.status h = "healthy" ->
  exists r data,
    transport log (tags_request self) = Return r
    /\ is_success r = true
    /\ json r = Return data
    /\ reported_names data = Return (Health.models h)
    /\ (Health.gemma_available h = true
        <-> exists v, In v (Health.models h) /\ Py.contains "gemma3" v = Return true)
    /\ (forall names,
          reported_names data = Return (map VStr names) ->
          Health.gemma_available h = existsb (PyStr.contains "gemma3") names)
    /\ (forall d entries names,
          data = VDict d ->
          lookup "models" d = Some (VList entries) ->
          Forall2 Notions.names_model entries names ->
          Health.models h = map VStr names
          /\ Health.gemma_available h = existsb (PyStr.contains "gemma3") names).
Proof.
  intros H Hst. rewrite ClientFacts.check_health_run in H. injection H as <- _.
  unfold ClientSpec.raised in Hst |- *.
  destruct (transport log (tags_request self)) as [r|e]; [|discriminate].
  destruct (is_success r) eqn:Hs; [|discriminate].
  destruct (json r) as [data|e] eqn:Hj; [|discriminate].
  cbn [rbind] in Hst |- *.
  destruct (listing data) as [[models gemma]|e] eqn:El; [|discriminate].
  pose proof (listing_names _ _ _ El) as Hrep. pose proof (listing_any _ _ _ El) as Hany.
  exists r, data. cbn [healthy Health.gemma_available Health.models].
  split; [reflexivity|]. split; [exact Hs|]. split; [exact Hj|].
  split; [exact Hrep|]. split; [now apply ClientFacts.any_true_iff|].
  assert (Hn : forall names,
             reported_names data = Return (map VStr names) ->
             gemma = existsb (PyStr.contains "gemma3") names).
  { intros names Hnames. rewrite Hrep in Hnames. injection Hnames as ->.
    rewrite ClientFacts.any_names in Hany. now injection Hany. }
  split; [exact Hn|].
  intros d entries names -> Hm Hnames.
  assert (Hr' : reported_names (VDict d) = Return (map VStr names)).
  { unfold reported_names. cbn [get]. rewrite Hm. cbn [rbind iter].
    apply (ClientProps.names_comprehension _ _ Hnames). }
  split; [|now apply Hn]. rewrite Hrep in Hr'. now injection Hr'.
Qed.

(** C10: an image that is the empty string is an absent image: the size
    check is skipped whatever the ceiling, the prompt is the one without
    the screenshot sentence, the payload has no [images], and the run is
    the run of the same request with no image. *)
Theorem empty_image_is_absent (query context : string) (model : option string)
  (log : Log) :
  let empty := AnalysisRequest.mk query context (Some EmptyString) model in
  let absent := AnalysisRequest.mk query context None model in
  analyze_query empty log = analyze_query absent log
  /\ too_large settings empty = false
  /\ http_status (fst (analyze_query empty log)) <> 413%Z
  /\ system_prompt empty = system_prompt absent
  /\ (exists url payload,
        snd (analyze_query empty log) = (log ++ [POST url payload])%list
        /\ payload_images payload = None).
Proof.
  intros empty absent. split; [reflexivity|]. split; [reflexivity|].
  split; [now apply analyze_query_passed|]. split; [reflexivity|].
  destruct (analyze_query_passed empty log eq_refl) as [_ ->].
  eexists _, _. split; reflexivity.
Qed.

End Claims.

(** ** The claims at work *)

Import Doubles.

Lemma image_size_ceiling_witness :
  (http_status (fst (analyze_query unreachable reason_phrase clock settings3
                       (ask (Some "AAA") None) [])) <> 413%Z
   /\ snd (analyze_query unreachable reason_phrase clock settings3
             (ask (Some "AAA") None) [])
      = [analyze_request settings3 (ask (Some "AAA") None)])
  /\ analyze_query unreachable reason_phrase clock settings3 (ask (Some "AAAA") None) []
     = (Raise (HTTPException 413 "Image too large"), []).
Proof.
  split.
  - apply (image_size_ceiling unreachable reason_phrase clock settings3
             (ask (Some "AAA") None) "AAA" [] eq_refl); [cbn; lia|reflexivity].
  - apply (image_size_ceiling unreachable reason_phrase clock settings3
             (ask (Some "AAAA") None) "AAAA" [] eq_refl); [cbn; lia|reflexivity].
Defined.

Lemma generate_response_single_attempt_witness :
  exists reason,
    generate_response (answers not_found) reason_phrase client "m" "p" None None []
    = (Return (Failure reason), [generate_request client "m" "p" None None])
    /\ PyStr.contains "404" reason = true
    /\ PyStr.contains "model not found" reason = true.
Proof.
  destruct (generate_response_single_attempt (answers not_found) reason_phrase
              client "m" "p" None None [])
    as (g & Hrun & _ & Hstatus).
  destruct (Hstatus not_found eq_refl eq_refl) as (reason & Hg & Hcode & Hbody).
  exists reason. rewrite <- Hg. repeat split; assumption.
Defined.

Lemma analyze_query_backend_failure_witness :
  exists reason,
    Generated.error (Failure "All connection attempts failed") = Some reason
    /\ analyze_query unreachable reason_phrase clock Settings_defaults (ask None None) []
       = (Raise (HTTPException 500 ("Failed to generate response: " ++ reason)),
          [analyze_request Settings_defaults (ask None None)])
    /\ http_status
         (fst (analyze_query unreachable reason_phrase clock Settings_defaults
                 (ask None None) []))
       = 500%Z.
Proof.
  apply (analyze_query_backend_failure unreachable reason_phrase clock
           Settings_defaults (ask None None) [] _
           (Failure "All connection attempts failed")); reflexivity.
Defined.

(** C4, as stated, fails: the text of the transport error reaches the
    calling client inside the detail. *)
Lemma analyze_query_leaks_transport_error :
  unreachable [] (analyze_request Settings_defaults (ask None None))
  = Raise (Error "ConnectError" "All connection attempts failed")
  /\ http_detail
       (fst (analyze_query unreachable reason_phrase clock Settings_defaults
               (ask None None) []))
     = Some "Failed to generate response: All connection attempts failed"
  /\ PyStr.contains "All connection attempts failed"
       "Failed to generate response: All connection attempts failed" = true.
Proof. repeat split; reflexivity. Qed.

Lemma check_health_never_raises_witness :
  check_health unreachable reason_phrase client []
  = (Return (unhealthy "All connection attempts failed"), [tags_request client])
  /\ check_health (answers not_found) reason_phrase client []
     = (Return (unhealthy "Error '404'"), [tags_request client])
  /\ check_health (answers garbled) reason_phrase client []
     = (Return (unhealthy "Expecting value: line 1 column 1 (char 0)"),
        [tags_request client])
  /\ check_health (answers (ok "[]" (VList []))) reason_phrase client []
     = (Return (unhealthy "'list' object has no attribute 'get'"),
        [tags_request client]).
Proof.
  split; [|split; [|split]].
  - apply (proj1 (proj2 (check_health_never_raises unreachable reason_phrase client []))
             (Error "ConnectError" "All connection attempts failed") eq_refl).
  - apply (proj1 (proj2 (check_health_never_raises (answers not_found) reason_phrase
                           client []))
             (HTTPStatusError "Error '404'" 404 "model not found") eq_refl).
  - apply (proj1 (proj2 (check_health_never_raises (answers garbled) reason_phrase
                           client []))
             (Error "JSONDecodeError" "Expecting value: line 1 column 1 (char 0)")
             eq_refl).
  - apply (proj2 (proj2 (check_health_never_raises (answers (ok "[]" (VList [])))
                           reason_phrase client []))
             (ok "[]" (VList [])) (VList [])
             (AttributeError (VList []) "get")); reflexivity.
Defined.

Lemma analyze_query_answer_witness :
  AnalysisResponse.confidence
    {| AnalysisResponse.guidance := "1. Open the Phone app" ++ nl ++ "2. Tap the name";
       AnalysisResponse.steps := Some ["Open the Phone app"; "Tap the name"];
       AnalysisResponse.confidence := 0.9;
       AnalysisResponse.model_used := "llama3:8b";
       AnalysisResponse.context := "phone";
       AnalysisResponse.timestamp := clock |} = 0.9%float
  /\ AnalysisResponse.model_used
       {| AnalysisResponse.guidance := "1. Open the Phone app" ++ nl ++ "2. Tap the name";
          AnalysisResponse.steps := Some ["Open the Phone app"; "Tap the name"];
          AnalysisResponse.confidence := 0.9;
          AnalysisResponse.model_used := "llama3:8b";
          AnalysisResponse.context := "phone";
          AnalysisResponse.timestamp := clock |} = "llama3:8b".
Proof.
  apply (analyze_query_answer (answers (ok "{}" generated)) reason_phrase clock
           Settings_defaults (ask None (Some "llama3:8b")) []
           [analyze_request Settings_defaults (ask None (Some "llama3:8b"))]).
  reflexivity.
Defined.

(** C6, as stated, fails on a request whose model is the empty string: it
    supplies a model, and the answer names the default one. *)
Lemma analyze_query_empty_model :
  AnalysisRequest.model (ask None (Some EmptyString)) = Some EmptyString
  /\ fst (analyze_query (answers (ok "{}" generated)) reason_phrase clock
            Settings_defaults (ask None (Some EmptyString)) [])
     = Return
         {| AnalysisResponse.guidance := "1. Open the Phone app" ++ nl ++ "2. Tap the name";
            AnalysisResponse.steps := Some ["Open the Phone app"; "Tap the name"];
            AnalysisResponse.confidence := 0.9;
            AnalysisResponse.model_used := "gemma3:4b-instruct-q4_0";
            AnalysisResponse.context := "phone";
            AnalysisResponse.timestamp := clock |}.
Proof. split; reflexivity. Qed.

Lemma gemma_available_iff_witness :
  Health.models (healthy [VStr "llama3:8b"; VStr "gemma3:4b-instruct-q4_0"] true)
  = map VStr ["llama3:8b"; "gemma3:4b-instruct-q4_0"]
  /\ Health.gemma_available
       (healthy [VStr "llama3:8b"; VStr "gemma3:4b-instruct-q4_0"] true)
     = existsb (PyStr.contains "gemma3") ["llama3:8b"; "gemma3:4b-instruct-q4_0"].
Proof.
  destruct (gemma_available_iff (answers (ok "{}" tags)) reason_phrase client []
              [tags_request client]
              (healthy [VStr "llama3:8b"; VStr "gemma3:4b-instruct-q4_0"] true)
              eq_refl eq_refl)
    as (r & data & Hr & _ & Hj & _ & _ & _ & Hlisting).
  unfold answers in Hr. injection Hr as <-. cbn [json ok] in Hj. injection Hj as <-.
  apply (Hlisting _ _ ["llama3:8b"; "gemma3:4b-instruct-q4_0"] eq_refl eq_refl).
  constructor; [eexists; split; reflexivity|].
  constructor; [eexists; split; reflexivity|constructor].
Defined.

(** The match is on the exact letters: a capital does not count. *)
Example gemma_available_case_sensitive :
  check_health
    (answers (ok "{}" (VDict [("models", VList [VDict [("name", VStr "Gemma3:4b")]])])))
    reason_phrase client []
  = (Return (healthy [VStr "Gemma3:4b"] false), [tags_request client]).
Proof. reflexivity. Qed.

(** * Further properties *)

(** ** The step parser *)

Module StepProps.
Import PyStr Steps StepSpec PyStrFacts StepFacts Notions.

#[local] Arguments isspace : simpl never.
#[local] Arguments isdigit : simpl never.

Lemma occurs_in_refl (s : string) : occurs_in s s.
Proof.
  exists EmptyString, EmptyString. cbn [append].
  induction s as [|c r IH]; [reflexivity|]. cbn [append]. now rewrite <- IH.
Qed.

Lemma append_empty_r (s : string) : s ++ EmptyString = s.
Proof. induction s as [|c r IH]; [reflexivity|]. cbn [append]. now rewrite IH. Qed.

Lemma append_assoc (a b c : string) : (a ++ b) ++ c = a ++ b ++ c.
Proof. induction a as [|x a IH]; [reflexivity|]. cbn [append]. now rewrite IH. Qed.

Lemma occurs_in_trans (s t u : string) : occurs_in s t -> occurs_in t u -> occurs_in s u.
Proof.
  intros (a & b & ->) (a' & b' & ->). exists (a' ++ a), (b ++ b').
  now rewrite !append_assoc.
Qed.

Lemma occurs_in_suffix (a s : string) : occurs_in s (a ++ s).
Proof. exists a, EmptyString. now rewrite append_empty_r. Qed.

Lemma occurs_in_prefix (s b : string) : occurs_in s (s ++ b).
Proof. now exists EmptyString, b. Qed.

Lemma occurs_in_cons (c : ascii) (s t : string) : occurs_in s t -> occurs_in s (String c t).
Proof. intros (a & b & ->). now exists (String c a), b. Qed.

Lemma lstrip_occurs_in (s : string) : occurs_in (lstrip s) s.
Proof.
  induction s as [|c r IH]; [apply occurs_in_refl|].
  cbn [lstrip]. destruct (isspace c); [now apply occurs_in_cons|apply occurs_in_refl].
Qed.

Lemma rstrip_prefix (s : string) : exists b, s = rstrip s ++ b.
Proof.
  induction s as [|c r [b IH]]; [now exists EmptyString|].
  cbn [rstrip]. destruct (rstrip r) as [|d r'] eqn:E.
  - destruct (isspace c).
    + now exists (String c r).
    + exists b. cbn [append] in *. now rewrite <- IH.
  - exists b. cbn [append] in *. now rewrite <- IH.
Qed.

Lemma strip_occurs_in (s : string) : occurs_in (strip s) s.
Proof.
  apply occurs_in_trans with (lstrip s); [|apply lstrip_occurs_in].
  unfold strip. destruct (rstrip_prefix (lstrip s)) as [b Hb].
  rewrite Hb at 2. apply occurs_in_prefix.
Qed.

Lemma cut_append (sep : ascii) (s a b : string) :
  cut sep s = Some (a, b) -> s = a ++ String sep b.
Proof.
  revert a. induction s as [|c r IH]; intros a; cbn [cut]; [discriminate|].
  destruct (Ascii.eqb c sep) eqn:E.
  - apply Ascii.eqb_eq in E. subst c. now intros [= <- <-].
  - destruct (cut sep r) as [[a' b']|]; [|discriminate].
    intros [= <- <-]. cbn [append]. now rewrite <- (IH a' eq_refl).
Qed.

Lemma after_first_occurs_in (sep : ascii) (s : string) : occurs_in (after_first sep s) s.
Proof.
  unfold after_first. destruct (cut sep s) as [[a b]|] eqn:E; [|apply occurs_in_refl].
  apply cut_append in E. subst s.
  change (a ++ String sep b) with (a ++ (String sep EmptyString ++ b)).
  rewrite <- append_assoc. apply occurs_in_suffix.
Qed.

Lemma cleaned_occurs_in (digit : ascii -> bool) (t : string) : occurs_in (cleaned digit t) t.
Proof.
  unfold cleaned, trim. destruct (first_char_is digit t).
  - eapply occurs_in_trans; [apply strip_occurs_in|].
    eapply occurs_in_trans; apply after_first_occurs_in.
  - eapply occurs_in_trans; [apply strip_occurs_in|apply after_first_occurs_in].
Qed.

Lemma contribution_occurs_in (digit : ascii -> bool) (line s : string) :
  In s (contribution digit line) -> occurs_in s line.
Proof.
  unfold contribution, trim. destruct (qualifies _ _); [|intros []].
  destruct (truthy _); [|intros []]. intros [<-|[]].
  eapply occurs_in_trans; [apply cleaned_occurs_in|apply strip_occurs_in].
Qed.

Lemma split_pieces_occur_in (sep : ascii) (s : string) :
  (exists b, s = fst (split_pieces sep s) ++ b)
  /\ Forall (fun x => occurs_in x s) (snd (split_pieces sep s)).
Proof.
  induction s as [|c r [[b IH1] IH2]]; [split; [now exists EmptyString|constructor]|].
  cbn [split_pieces]. destruct (split_pieces sep r) as [h t]. cbn [fst snd] in *.
  assert (Ht : Forall (fun x => occurs_in x (String c r)) t).
  { eapply Forall_impl; [|exact IH2]. intros x. apply occurs_in_cons. }
  destruct (Ascii.eqb c sep); cbn [fst snd]; split.
  - now exists (String c r).
  - constructor; [|exact Ht]. apply occurs_in_cons. rewrite IH1.
    apply occurs_in_prefix.
  - exists b. cbn [append]. now rewrite <- IH1.
  - exact Ht.
Qed.

Lemma split_occurs_in (sep : ascii) (s x : string) : In x (split sep s) -> occurs_in x s.
Proof.
  unfold split. pose proof (split_pieces_occur_in sep s) as [[b H1] H2].
  destruct (split_pieces sep s) as [h t]. cbn [fst snd] in *.
  intros [<-|Hx]; [rewrite H1; apply occurs_in_prefix|].
  rewrite Forall_forall in H2. now apply H2.
Qed.

Lemma split_app (sep : ascii) (x y : string) :
  split sep (x ++ String sep y) = (split sep x ++ split sep y)%list.
Proof.
  unfold split. induction x as [|c r IH].
  - cbn [append split_pieces]. destruct (split_pieces sep y) as [h t].
    now rewrite Ascii.eqb_refl.
  - cbn [append split_pieces].
    destruct (split_pieces sep (r ++ String sep y)) as [h t].
    destruct (split_pieces sep r) as [h' t']. destruct (split_pieces sep y) as [h2 t2].
    cbn [app] in IH. injection IH as -> ->.
    destruct (Ascii.eqb c sep); reflexivity.
Qed.

Lemma contains_prefix (x h : string) :
  (exists b, h = x ++ b) -> PyStr.contains x h = true.
Proof. intros [b ->]. apply (ClientFacts.contains_app EmptyString). Qed.

(** Finds the needle at the head of one of the pieces of the hay. *)
Ltac find_needle :=
  first [ apply contains_prefix; eexists; rewrite ?append_assoc; reflexivity
        | apply ClientFacts.contains_app_r; find_needle ].

Lemma contribution_strip (digit : ascii -> bool) (line : string) :
  contribution digit (strip line) = contribution digit line.
Proof. unfold contribution, trim. now rewrite strip_idem. Qed.

End StepProps.

Import Notions.

(** X1: every step that [extract_steps] returns is trimmed, is not the
    empty string and holds no line feed. *)
Theorem extract_steps_clean (text : string) (steps : list string) (s : string) :
  extract_steps text = Some steps ->
  In s steps ->
  strip s = s /\ s <> EmptyString /\ occurs LF s = false.
Proof.
  intros H Hs. apply StepFacts.extract_steps_is_step in H. destruct H as [_ H].
  rewrite Forall_forall in H. destruct (H s Hs) as (H1 & H2 & H3).
  split; [exact H1|]. split; [now destruct s|]. unfold occurs. now rewrite H3.
Qed.

Lemma extract_steps_clean_witness :
  strip "Tap icon" = "Tap icon" /\ "Tap icon" <> EmptyString /\ occurs LF "Tap icon" = false.
Proof.
  apply (extract_steps_clean ("1. Open app" ++ nl ++ "  2)  Tap icon  ")
           ["Open app"; "Tap icon"] "Tap icon" eq_refl).
  right. now left.
Defined.

(** X2: every step that [extract_steps] returns occurs in the text as it
    is: the parser cuts, it never rewrites. *)
Theorem extract_steps_verbatim (text : string) (steps : list string) (s : string) :
  extract_steps text = Some steps ->
  In s steps ->
  occurs_in s text /\ PyStr.contains s text = true.
Proof.
  intros H Hs. rewrite StepFacts.extract_steps_flat in H.
  assert (Hin : In s (flat_map (contribution isdigit) (split LF text))).
  { destruct (flat_map _ _); [discriminate|]. now injection H as <-. }
  apply in_flat_map in Hin. destruct Hin as (line & Hline & Hc).
  assert (Ho : occurs_in s text).
  { eapply StepProps.occurs_in_trans;
      [apply (StepProps.contribution_occurs_in _ _ _ Hc)
      |apply (StepProps.split_occurs_in _ _ _ Hline)]. }
  split; [exact Ho|]. destruct Ho as (a & b & ->). apply ClientFacts.contains_app.
Qed.

Lemma extract_steps_verbatim_witness :
  occurs_in "Tap icon" ("1. Open app" ++ nl ++ "  2)  Tap icon  ")
  /\ PyStr.contains "Tap icon" ("1. Open app" ++ nl ++ "  2)  Tap icon  ") = true.
Proof.
  apply (extract_steps_verbatim ("1. Open app" ++ nl ++ "  2)  Tap icon  ")
           ["Open app"; "Tap icon"] "Tap icon" eq_refl).
  right. now left.
Defined.

(** X3: the steps of two texts joined by a line feed are the steps of the
    first followed by the steps of the second. *)
Theorem extract_steps_app (first second : string) :
  extract_steps (first ++ nl ++ second)
  = both (extract_steps first) (extract_steps second).
Proof.
  rewrite !StepFacts.extract_steps_flat. unfold nl. cbn [append].
  rewrite StepProps.split_app, flat_map_app. unfold both.
  destruct (flat_map _ (split LF first)), (flat_map _ (split LF second)); reflexivity.
Qed.

(** X4: [extract_steps] returns at most one step per line of the text. *)
Theorem extract_steps_count (text : string) (steps : list string) :
  extract_steps text = Some steps ->
  List.length steps <= List.length (split LF text).
Proof.
  rewrite StepFacts.extract_steps_flat. intros H.
  pose proof (StepFacts.flat_map_length_le (contribution isdigit) (split LF text)
                (StepFacts.contribution_length isdigit)) as Hl.
  destruct (flat_map _ _); [discriminate|]. now injection H as <-.
Qed.

Lemma extract_steps_count_witness :
  List.length ["Open app"; "Tap icon"]
  <= List.length (split LF ("1. Open app" ++ nl ++ "note" ++ nl ++ "2. Tap icon")).
Proof.
  apply (extract_steps_count ("1. Open app" ++ nl ++ "note" ++ nl ++ "2. Tap icon")).
  reflexivity.
Defined.

(** X5: white space around the lines does not count: the lines trimmed
    beforehand give the same steps. *)
Theorem extract_steps_trimmed_lines (lines : list string) :
  lines <> [] ->
  Forall (fun line => occurs LF line = false) lines ->
  extract_steps (join nl (map strip lines)) = extract_steps (join nl lines).
Proof.
  intros Hne Hlf.
  assert (Hlf' : Forall (fun x => cut LF x = None) lines).
  { eapply Forall_impl; [|exact Hlf]. intros x. unfold occurs.
    now destruct (cut LF x). }
  rewrite !StepFacts.extract_steps_flat, !PyStrFacts.split_join; try assumption.
  - rewrite flat_map_concat_map, map_map.
    rewrite (map_ext _ _ (StepProps.contribution_strip isdigit)).
    now rewrite <- flat_map_concat_map.
  - now destruct lines.
  - rewrite Forall_map. eapply Forall_impl; [|exact Hlf'].
    intros x. apply PyStrFacts.absent_strip.
Qed.

Lemma extract_steps_trimmed_lines_witness :
  extract_steps (join nl (map strip ["   1. Open app  "; "Step 2:   Tap icon "]))
  = extract_steps (join nl ["   1. Open app  "; "Step 2:   Tap icon "]).
Proof.
  apply (extract_steps_trimmed_lines ["   1. Open app  "; "Step 2:   Tap icon "]).
  - discriminate.
  - repeat constructor.
Defined.

(** ** The Ollama client, further *)


Section ClientProperties.

Variable transport : Log -> Request -> result Response.
Variable status_message : Response -> string.
Variable now : string.
Variable settings : Settings.

#[local] Abbreviation check_health := (check_health transport status_message).
#[local] Abbreviation generate_response := (generate_response transport status_message).
#[local] Abbreviation analyze_query := (analyze_query transport status_message now settings).
#[local] Abbreviation raised := (raised status_message).

(** X6: the dictionary of [generate_response] has one of two shapes:
    success with the decoded body and no error, when the request returned
    a 2xx response whose body decodes; failure with a reason and no data
    otherwise. *)
Theorem generate_response_shapes (self : OllamaClient) (model prompt : string)
  (images : option (list string)) (options : option (list (string * value)))
  (log : Log) :
  exists g : Generated.t,
    fst (generate_response self model prompt images options log) = Return g
    /\ ((exists r data,
           transport log (generate_request self model prompt images options) = Return r
           /\ is_success r = true /\ json r = Return data
           /\ g = {| Generated.success := true;
                     Generated.data := Some data;
                     Generated.error := None |})
        \/ (exists e,
              raised (transport log (generate_request self model prompt images options))
              = Some e
              /\ g = {| Generated.success := false;
                        Generated.data := None;
                        Generated.error := Some (failure_reason e) |})).
Proof.
  rewrite ClientFacts.generate_response_run. eexists. split; [reflexivity|].
  unfold generation, ClientSpec.raised.
  destruct (transport log _) as [r|e]; [|right; eauto].
  destruct (is_success r) eqn:Hs; [|right; eauto].
  destruct (json r) as [data|e] eqn:Hj; [left|right; eauto].
  exists r, data. now repeat split.
Qed.

(** X7: an empty list of images and an empty dictionary of options count
    as none given: the request has no [images] and carries the fixed
    decoding options. *)
Theorem generate_response_empty_arguments (self : OllamaClient) (model prompt : string)
  (log : Log) :
  generate_response self model prompt (Some []) (Some []) log
  = generate_response self model prompt None None log
  /\ snd (generate_response self model prompt (Some []) (Some []) log)
     = (log ++ [POST (base_url self ++ "/api/generate")
                  {| payload_model := model;
                     payload_prompt := prompt;
                     payload_stream := false;
                     payload_options :=
                       [("temperature", VFloat 0.3); ("top_p", VFloat 0.9);
                        ("repeat_penalty", VFloat 1.1)];
                     payload_images := None |}])%list.
Proof.
  split; [reflexivity|]. now rewrite ClientFacts.generate_response_run.
Qed.

(** X8: on a listing whose entries each name their model with a string,
    [check_health] is healthy and reports exactly these names, in the
    order of the listing, with the flag of the family among them. *)
Theorem check_health_listing (self : OllamaClient) (log : Log) (r : Response)
  (d : list (string * value)) (entries : list value) (names : list string) :
  transport log (tags_request self) = Return r ->
  is_success r = true ->
  json r = Return (VDict d) ->
  lookup "models" d = Some (VList entries) ->
  Forall2 names_model entries names ->
  check_health self log
  = (Return {| Health.status := "healthy";
               Health.error := None;
               Health.models := map VStr names;
               Health.gemma_available := existsb (PyStr.contains "gemma3") names |},
     (log ++ [tags_request self])%list).
Proof.
  intros Hr Hs Hj Hm Hn. rewrite ClientFacts.check_health_run.
  unfold ClientSpec.raised. rewrite Hr, Hs, Hj. cbn [rbind].
  unfold listing. cbn [get]. rewrite Hm. cbn [rbind iter].
  rewrite (ClientProps.names_comprehension _ _ Hn). cbn [rbind].
  rewrite ClientFacts.any_names. reflexivity.
Qed.

(** X9: a decoded body that is a dictionary with no [models] counts as a
    healthy backend with no model. *)
Theorem check_health_no_models_key (self : OllamaClient) (log : Log) (r : Response)
  (d : list (string * value)) :
  transport log (tags_request self) = Return r ->
  is_success r = true ->
  json r = Return (VDict d) ->
  lookup "models" d = None ->
  check_health self log
  = (Return {| Health.status := "healthy";
               Health.error := None;
               Health.models := [];
               Health.gemma_available := false |},
     (log ++ [tags_request self])%list).
Proof.
  intros Hr Hs Hj Hm. rewrite ClientFacts.check_health_run.
  unfold ClientSpec.raised. rewrite Hr, Hs, Hj. cbn [rbind].
  unfold listing. cbn [get]. rewrite Hm. reflexivity.
Qed.

(** X10: the dictionary of [check_health] is healthy with no error, or
    unhealthy with an error, no model and the flag down; the flag is up
    only with a healthy status and at least one model. *)
Theorem check_health_invariant (self : OllamaClient) (log log' : Log) (h : Health.t) :
  check_health self log = (Return h, log') ->
  ((Health.status h = "healthy" /\ Health.error h = None)
   \/ (Health.status h = "unhealthy" /\ Health.error h <> None
       /\ Health.models h = [] /\ Health.gemma_available h = false))
  /\ (Health.gemma_available h = true ->
      Health.status h = "healthy" /\ Health.models h <> []).
Proof.
  rewrite ClientFacts.check_health_run. intros [= <- _].
  assert (U : forall c,
             let u := unhealthy c in
             ((Health.status u = "healthy" /\ Health.error u = None)
              \/ (Health.status u = "unhealthy" /\ Health.error u <> None
                  /\ Health.models u = [] /\ Health.gemma_available u = false))
             /\ (Health.gemma_available u = true ->
                 Health.status u = "healthy" /\ Health.models u <> [])).
  { intros c. cbn. split; [right; repeat split; discriminate|discriminate]. }
  destruct (raised _) as [e|]; [apply U|].
  destruct (transport log _) as [r|e]; [|apply U].
  destruct (rbind (json r) listing) as [[models gemma]|e] eqn:El; [|apply U].
  cbn. split; [now left|]. intros ->. split; [reflexivity|].
  destruct (json r) as [data|e]; [|discriminate]. cbn [rbind] in El.
  apply listing_any in El. intros ->. discriminate.
Qed.

(** X11: one entry of the listing without a [name] makes the whole check
    unhealthy, whatever the other entries name; the error is the missing
    key. *)
Theorem check_health_nameless_entry (self : OllamaClient) (log : Log) (r : Response)
  (d : list (string * value)) (entries : list value) :
  transport log (tags_request self) = Return r ->
  is_success r = true ->
  json r = Return (VDict d) ->
  lookup "models" d = Some (VList entries) ->
  Forall is_dict entries ->
  Exists nameless entries ->
  check_health self log
  = (Return {| Health.status := "unhealthy";
               Health.error := Some "'name'";
               Health.models := [];
               Health.gemma_available := false |},
     (log ++ [tags_request self])%list).
Proof.
  intros Hr Hs Hj Hm Hd He. rewrite ClientFacts.check_health_run.
  unfold ClientSpec.raised. rewrite Hr, Hs, Hj. cbn [rbind].
  unfold listing. cbn [get]. rewrite Hm. cbn [rbind iter].
  rewrite (ClientProps.nameless_comprehension _ Hd He). reflexivity.
Qed.

End ClientProperties.

(** ** [/api/analyze], further *)

Section AnalyzeProperties.

Variable transport : Log -> Request -> result Response.
Variable status_message : Response -> string.
Variable now : string.
Variable settings : Settings.

#[local] Abbreviation analyze_query := (analyze_query transport status_message now settings).
#[local] Abbreviation raised := (raised status_message).

(** X12: [analyze_query] ends in one of three ways only: an answer, the
    413 of the size check, or a 500; it raises no other exception and no
    other status. *)
Theorem analyze_query_statuses (request : AnalysisRequest.t) (log : Log) :
  (exists a, fst (analyze_query request log) = Return a)
  \/ fst (analyze_query request log) = Raise (HTTPException 413 "Image too large")
  \/ (exists detail, fst (analyze_query request log) = Raise (HTTPException 500 detail)).
Proof.
  rewrite ClientFacts.analyze_query_run.
  destruct (too_large settings request); [right; now left|]. cbn [fst].
  destruct (raised _) as [e|]; [right; right; eauto|].
  destruct (transport log _) as [r|e]; [|right; right; eauto].
  destruct (json r) as [data|e]; [|right; right; eauto].
  destruct (ClientFacts.answer_status now settings request data) as [[a ->]| ->];
    [left|right; right]; eauto.
Qed.

(** X13: the client gets a 413 exactly when the request has an image that
    is not empty and is longer than the ceiling; the backend is then not
    called. *)
Theorem analyze_query_413 (request : AnalysisRequest.t) (log : Log) :
  (http_status (fst (analyze_query request log)) = 413%Z
   <-> exists image,
         AnalysisRequest.image request = Some image
         /\ image <> EmptyString
         /\ (max_image_size settings < len image)%Z)
  /\ (http_status (fst (analyze_query request log)) = 413%Z ->
      snd (analyze_query request log) = log).
Proof.
  assert (Hl : too_large settings request = true
               <-> exists image,
                     AnalysisRequest.image request = Some image
                     /\ image <> EmptyString
                     /\ (max_image_size settings < len image)%Z).
  { unfold too_large, if_truthy. destruct (AnalysisRequest.image request) as [i|].
    - destruct i as [|c i]; cbn [truthy].
      + split; [discriminate|]. intros (image & [= <-] & H & _). congruence.
      + rewrite Z.gtb_ltb, Z.ltb_lt. split.
        * intros H. exists (String c i). repeat split; [discriminate|exact H].
        * now intros (image & [= <-] & _ & H).
    - split; [discriminate|]. now intros (image & H & _). }
  destruct (too_large settings request) eqn:E.
  - rewrite ClientFacts.analyze_query_run, E. cbn. split; [|reflexivity].
    rewrite <- Hl. now split.
  - destruct (analyze_query_passed transport status_message now settings request log E)
      as [Hs _].
    split; [|now intros H]. rewrite <- Hl. split; [now intros H|discriminate].
Qed.

(** X14: when the size check passes, exactly one request goes to the
    backend: a POST to [/api/generate] that is not streamed, with the
    fixed decoding options, the prompt of the request, the image alone in
    [images] if there is one, and the model that the answer then names. *)
Theorem analyze_query_request (request : AnalysisRequest.t) (log : Log) :
  too_large settings request = false ->
  exists p : Payload,
    snd (analyze_query request log)
    = (log ++ [POST (ollama_base_url settings ++ "/api/generate") p])%list
    /\ payload_prompt p = system_prompt request
    /\ payload_stream p = false
    /\ payload_options p = default_options
    /\ payload_images p
       = match AnalysisRequest.image request with
         | Some (String c i) => Some [String c i]
         | Some EmptyString | None => None
         end
    /\ (forall a, fst (analyze_query request log) = Return a ->
                  AnalysisResponse.model_used a = payload_model p).
Proof.
  intros H. rewrite ClientFacts.analyze_query_run, H. cbn [fst snd].
  eexists. split; [reflexivity|]. cbn. repeat split.
  - destruct (AnalysisRequest.image request) as [[|c i]|]; reflexivity.
  - intros a. destruct (raised _) as [e|]; [discriminate|].
    destruct (transport log _) as [r|e]; [|discriminate].
    destruct (json r) as [data|e]; [|discriminate].
    unfold answer. destruct (rbind _ _) as [[g st]|e]; [|discriminate].
    now intros [= <-].
Qed.

(** X15: from a 2xx response whose body decodes to a dictionary, the
    answer takes the string under [response] as its guidance and the
    steps found in it; with no [response] the guidance is empty and there
    are no steps. *)
Theorem analyze_query_guidance (request : AnalysisRequest.t) (log : Log)
  (r : Response) (d : list (string * value)) :
  too_large settings request = false ->
  transport log (analyze_request settings request) = Return r ->
  is_success r = true ->
  json r = Return (VDict d) ->
  (forall s,
     lookup "response" d = Some (VStr s) ->
     exists a,
       fst (analyze_query request log) = Return a
       /\ AnalysisResponse.guidance a = s
       /\ AnalysisResponse.steps a = extract_steps s
       /\ AnalysisResponse.context a = AnalysisRequest.context request
       /\ AnalysisResponse.timestamp a = now)
  /\ (lookup "response" d = None ->
      exists a,
        fst (analyze_query request log) = Return a
        /\ AnalysisResponse.guidance a = EmptyString
        /\ AnalysisResponse.steps a = None).
Proof.
  intros H Hr Hs Hj. rewrite ClientFacts.analyze_query_run, H.
  unfold ClientSpec.raised. rewrite Hr, Hs, Hj. cbn [fst]. unfold answer. cbn [get].
  split.
  - intros s ->. cbn [rbind call_extract_steps]. eexists. split; [reflexivity|].
    now repeat split.
  - intros ->. cbn [rbind call_extract_steps]. eexists. split; [reflexivity|].
    now repeat split.
Qed.

(** X16: a 2xx response whose body decodes to something else than a
    dictionary, or to a dictionary whose [response] is not a string, ends
    in a 500 with the fixed detail. *)
Theorem analyze_query_unexpected_body (request : AnalysisRequest.t) (log : Log)
  (r : Response) (data : value) :
  too_large settings request = false ->
  transport log (analyze_request settings request) = Return r ->
  is_success r = true ->
  json r = Return data ->
  (forall d, data <> VDict d)
  \/ (exists d v, data = VDict d /\ lookup "response" d = Some v /\ is_str v = false) ->
  analyze_query request log
  = (Raise (HTTPException 500 "Internal server error"),
     (log ++ [analyze_request settings request])%list).
Proof.
  intros H Hr Hs Hj Hd. rewrite ClientFacts.analyze_query_run, H.
  unfold ClientSpec.raised. rewrite Hr, Hs, Hj. f_equal. unfold answer.
  destruct Hd as [Hd|(d & v & -> & Hv & Hstr)].
  - destruct data; try reflexivity. now destruct (Hd d).
  - cbn [get]. rewrite Hv. cbn [rbind]. destruct v; try reflexivity. discriminate.
Qed.

(** X17: the prompt holds the context and the question of the request as
    they are, the question between double quotes, and the screenshot
    sentence when the request has an image that is not empty. *)
Theorem system_prompt_holds (request : AnalysisRequest.t) :
  PyStr.contains ("Current app context: " ++ AnalysisRequest.context request ++ nl)
    (system_prompt request) = true
  /\ PyStr.contains
       ("User's question: " ++ dquote ++ AnalysisRequest.query request ++ dquote ++ nl)
       (system_prompt request) = true
  /\ (forall c i,
        AnalysisRequest.image request = Some (String c i) ->
        PyStr.contains
          "The user has provided a screenshot of their phone screen for you to analyze."
          (system_prompt request) = true).
Proof.
  unfold system_prompt. repeat split.
  - StepProps.find_needle.
  - StepProps.find_needle.
  - intros c i ->. cbn [if_truthy truthy]. StepProps.find_needle.
Qed.

End AnalyzeProperties.

(** ** The other routes *)

Module EndpointFacts.
Import PyStr Py Http Server ClientSpec Notions Endpoints.

Lemma validate_names (names : list string) :
  comprehension validate_str (map VStr names) = Return names.
Proof.
  induction names as [|n names IH]; [reflexivity|].
  cbn [map comprehension validate_str rbind]. now rewrite IH.
Qed.

Lemma validate_returns (l : list value) (names : list string) :
  comprehension validate_str l = Return names -> l = map VStr names.
Proof.
  revert names. induction l as [|v l IH]; intros names; cbn [comprehension].
  - now intros [= <-].
  - destruct v; try discriminate. cbn [validate_str rbind].
    destruct (comprehension validate_str l) as [ns|e]; [|discriminate].
    cbn [rbind]. intros [= <-]. cbn [map]. now rewrite (IH ns eq_refl).
Qed.

Lemma validate_raises (l : list value) :
  forallb is_str l = false ->
  comprehension validate_str l
  = Raise (ValidationError "Input should be a valid string").
Proof.
  induction l as [|v l IH]; [discriminate|]. cbn [forallb comprehension].
  destruct v; try reflexivity. cbn [is_str andb validate_str rbind].
  intros H. now rewrite (IH H).
Qed.

End EndpointFacts.

Section EndpointProperties.
Import Endpoints.

Variable transport : Log -> Request -> result Response.
Variable status_message : Response -> string.
Variable now : string.
Variable settings : Settings.

#[local] Abbreviation check_health := (check_health transport status_message).
#[local] Abbreviation analyze_query := (analyze_query transport status_message now settings).
#[local] Abbreviation health_check := (health_check transport status_message now settings).
#[local] Abbreviation get_models := (get_models transport status_message settings).
#[local] Abbreviation analyze_screenshot :=
  (analyze_screenshot transport status_message now settings).
#[local] Abbreviation lifespan_startup := (lifespan_startup transport status_message settings).
#[local] Abbreviation raised := (raised status_message).

Lemma health_check_run (log : Log) :
  health_check log
  = (rbind (fst (check_health (ollama_client settings) log)) (fun h =>
       new_HealthResponse now "healthy" (Health.status h) (Health.models h)
         (Health.gemma_available h)),
     (log ++ [tags_request (ollama_client settings)])%list).
Proof.
  unfold Endpoints.health_check, bind, lift.
  rewrite ClientFacts.check_health_run. reflexivity.
Qed.

(** X18: [GET /health] answers when the backend fails: whatever the
    request raised, whatever the status or the body that does not decode,
    the answer is the server healthy, Ollama unhealthy, no model and the
    flag down; the cause is not part of it. *)
Theorem health_check_backend_failure (log : Log) (e : exc) :
  raised (transport log (tags_request (ollama_client settings))) = Some e ->
  health_check log
  = (Return {| HealthResponse.server_status := "healthy";
               HealthResponse.ollama_status := "unhealthy";
               HealthResponse.available_models := [];
               HealthResponse.gemma_available := false;
               HealthResponse.timestamp := now |},
     (log ++ [tags_request (ollama_client settings)])%list).
Proof.
  intros H. rewrite health_check_run, ClientFacts.check_health_run, H. reflexivity.
Qed.

(** X19: [GET /health] answers exactly when every name that
    [check_health] reports is a string; the answer then repeats the
    status, the names in their order and the flag, and calls the server
    healthy. A name that is not a string makes the route raise. *)
Theorem health_check_answers (log log' : Log) (h : Health.t) :
  check_health (ollama_client settings) log = (Return h, log') ->
  ((exists a, fst (health_check log) = Return a)
   <-> forallb is_str (Health.models h) = true)
  /\ (forall a,
        fst (health_check log) = Return a ->
        HealthResponse.server_status a = "healthy"
        /\ HealthResponse.ollama_status a = Health.status h
        /\ map VStr (HealthResponse.available_models a) = Health.models h
        /\ HealthResponse.gemma_available a = Health.gemma_available h
        /\ HealthResponse.timestamp a = now)
  /\ snd (health_check log) = log'.
Proof.
  intros H. rewrite health_check_run, H. cbn [fst snd rbind].
  pose proof H as H'. rewrite ClientFacts.check_health_run in H'.
  injection H' as _ <-. unfold new_HealthResponse.
  split; [|split; [|reflexivity]].
  - destruct (forallb is_str (Health.models h)) eqn:E.
    + split; [reflexivity|]. intros _.
      destruct (comprehension validate_str (Health.models h)) as [names|e] eqn:Ec;
        [cbn [rbind]; eauto|].
      exfalso. clear H. induction (Health.models h) as [|v l IH]; [discriminate|].
      cbn [forallb comprehension] in *. destruct v; try discriminate.
      cbn [is_str andb validate_str rbind] in *.
      destruct (comprehension validate_str l); [discriminate|]. now apply IH.
    + rewrite (EndpointFacts.validate_raises _ E). cbn [rbind].
      split; [now intros [a Ha]|discriminate].
  - intros a. destruct (comprehension validate_str (Health.models h)) as [names|e] eqn:Ec;
      [|discriminate].
    cbn [rbind]. intros [= <-]. cbn. apply EndpointFacts.validate_returns in Ec.
    now repeat split.
Qed.

(** X20: [GET /api/models] turns every failure of the backend into the
    same 503, whose detail does not tell the cause: the health check
    always returns, and whenever it is not healthy (the request raised,
    the status is not 2xx, the body does not decode, or reading the
    decoded body as a listing raises) the route raises that 503; on a
    healthy check it returns the reported models, the configured default
    model as the recommended one, and the flag. *)
Theorem get_models_outcomes (log : Log) :
  (exists h,
     check_health (ollama_client settings) log
     = (Return h, (log ++ [tags_request (ollama_client settings)])%list))
  /\ (forall h log',
        check_health (ollama_client settings) log = (Return h, log') ->
        Health.status h <> "healthy" ->
        get_models log
        = (Raise (HTTPException 503 "Ollama service not available"), log'))
  /\ (forall e,
        raised (transport log (tags_request (ollama_client settings))) = Some e ->
        get_models log
        = (Raise (HTTPException 503 "Ollama service not available"),
           (log ++ [tags_request (ollama_client settings)])%list))
  /\ (forall r data e,
        transport log (tags_request (ollama_client settings)) = Return r ->
        is_success r = true ->
        json r = Return data ->
        listing data = Raise e ->
        get_models log
        = (Raise (HTTPException 503 "Ollama service not available"),
           (log ++ [tags_request (ollama_client settings)])%list))
  /\ (forall h log',
        check_health (ollama_client settings) log = (Return h, log') ->
        Health.status h = "healthy" ->
        get_models log
        = (Return {| Models.models := Health.models h;
                     Models.recommended := default_model settings;
                     Models.gemma_available := Health.gemma_available h |},
           log')).
Proof.
  split; [rewrite ClientFacts.check_health_run; eauto|].
  unfold Endpoints.get_models, bind. split; [|split; [|split]].
  - intros h log' -> Hne.
    destruct (String.eqb (Health.status h) "healthy") eqn:E; [|reflexivity].
    apply String.eqb_eq in E. contradiction.
  - intros e H. rewrite ClientFacts.check_health_run, H. reflexivity.
  - intros r data e Hr Hs Hj Hl. rewrite ClientFacts.check_health_run.
    unfold ClientSpec.raised. rewrite Hr, Hs, Hj. cbn [rbind]. rewrite Hl. reflexivity.
  - intros h log' -> ->. reflexivity.
Qed.

(** X21: [POST /api/screenshot] with a question of 1 to 1000 characters
    is [analyze_query] on the same question, context and image with no
    model: an answer always names the configured default model. *)
Theorem analyze_screenshot_delegates (request : ScreenshotRequest.t) (log : Log) :
  (1 <= len (ScreenshotRequest.query request) <= 1000)%Z ->
  analyze_screenshot request log
  = analyze_query
      (AnalysisRequest.mk (ScreenshotRequest.query request)
         (ScreenshotRequest.context request)
         (Some (ScreenshotRequest.image request)) None) log
  /\ (forall a,
        fst (analyze_screenshot request log) = Return a ->
        AnalysisResponse.model_used a = default_model settings).
Proof.
  intros [H1 H2].
  assert (E : analyze_screenshot request log
              = analyze_query
                  (AnalysisRequest.mk (ScreenshotRequest.query request)
                     (ScreenshotRequest.context request)
                     (Some (ScreenshotRequest.image request)) None) log).
  { unfold Endpoints.analyze_screenshot, bind, lift, new_AnalysisRequest.
    replace (len (ScreenshotRequest.query request) <? 1)%Z with false
      by (symmetry; apply Z.ltb_ge; lia).
    replace (len (ScreenshotRequest.query request) >? 1000)%Z with false
      by (symmetry; rewrite Z.gtb_ltb; apply Z.ltb_ge; lia).
    reflexivity. }
  split; [exact E|]. rewrite E, ClientFacts.analyze_query_run. intros a.
  destruct (too_large _ _); [discriminate|]. cbn [fst].
  destruct (raised _) as [e|]; [discriminate|].
  destruct (transport log _) as [r|e]; [|discriminate].
  destruct (json r) as [data|e]; [|discriminate].
  unfold answer. destruct (rbind _ _) as [[g st]|e]; [|discriminate].
  now intros [= <-].
Qed.

(** X22: [POST /api/screenshot] with an empty question, or one of more
    than 1000 characters, raises a validation error, which is no
    [HTTPException], and nothing is sent to the backend. *)
Theorem analyze_screenshot_bad_question (request : ScreenshotRequest.t) (log : Log) :
  ScreenshotRequest.query request = EmptyString
  \/ (1000 < len (ScreenshotRequest.query request))%Z ->
  exists message,
    analyze_screenshot request log = (Raise (ValidationError message), log).
Proof.
  intros H. unfold Endpoints.analyze_screenshot, bind, lift, new_AnalysisRequest.
  destruct H as [-> | H].
  - cbn. eauto.
  - replace (len (ScreenshotRequest.query request) <? 1)%Z with false
      by (symmetry; apply Z.ltb_ge; lia).
    replace (len (ScreenshotRequest.query request) >? 1000)%Z with true
      by (symmetry; rewrite Z.gtb_ltb; apply Z.ltb_lt; lia).
    cbn. eauto.
Qed.

(** X23: the start of the server never fails on the backend: it sends
    the one request of the health check and goes on, whatever comes
    back. *)
Theorem lifespan_startup_never_raises (log : Log) :
  lifespan_startup log
  = (Return tt, (log ++ [tags_request (ollama_client settings)])%list).
Proof.
  unfold Endpoints.lifespan_startup, bind. rewrite ClientFacts.check_health_run.
  destruct (String.eqb _ _); [|reflexivity].
  destruct (Health.gemma_available _); reflexivity.
Qed.

End EndpointProperties.

(** ** The prompts and rows of the training script *)

Module TrainingFacts.
Import PyStr Py Training Notions.

Lemma key_present (key : string) (d : list (string * value)) :
  existsb (fun kv => String.eqb (fst kv) key) d
  = match lookup key d with Some _ => true | None => false end.
Proof.
  induction d as [|[k v] d IH]; [reflexivity|].
  cbn [existsb lookup fst]. destruct (String.eqb k key); [reflexivity|exact IH].
Qed.

Lemma rows_of_conversation (conv : value) :
  conversation conv -> rows_of conv = Return (examples_of conv).
Proof.
  intros (d & -> & Hc & Ht). unfold rows_of, examples_of, turns_of, context_of.
  cbn [Py.contains rbind getitem get]. rewrite key_present.
  destruct Ht as [-> | (turns & -> & Hturns)]; [reflexivity|].
  cbn [rbind iter].
  assert (Hi : rbind match lookup "context" d with
                     | Some x => Return x
                     | None => Return (VStr "general")
                     end build_instruction_of
               = Return (_build_instruction
                           match lookup "context" d with
                           | Some (VStr c) => c
                           | _ => "general"
                           end)).
  { destruct Hc as [-> | (c & ->)]; reflexivity. }
  rewrite Hi. cbn [rbind].
  induction Hturns as [|turn turns (t & ->) _ IH]; [reflexivity|].
  cbn [comprehension map rbind get field_of]. rewrite IH.
  destruct (lookup "user_query" t), (lookup "assistant_response" t); reflexivity.
Qed.

End TrainingFacts.

Import Training.

(** X24: for an output that is not empty, the training text is the
    prompt used with no output, followed by the output and the closing
    marks: training and inference share the prompt. *)
Theorem format_prompt_extends (instruction input_text output : string) :
  output <> EmptyString ->
  format_prompt instruction input_text output
  = format_prompt instruction input_text EmptyString ++ output ++ "<end_of_turn><eos>".
Proof.
  intros H. unfold format_prompt. destruct output as [|c o]; [congruence|].
  cbn [truthy]. now rewrite !StepProps.append_assoc.
Qed.

Lemma format_prompt_extends_witness :
  format_prompt "Be patient." "How do I call?" "1. Open the Phone app"
  = format_prompt "Be patient." "How do I call?" EmptyString
    ++ "1. Open the Phone app" ++ "<end_of_turn><eos>".
Proof.
  apply (format_prompt_extends "Be patient." "How do I call?" "1. Open the Phone app").
  discriminate.
Defined.

(** X25: a context that is none of [whatsapp], [phone] and [settings]
    gets the instruction of the [general] context. *)
Theorem build_instruction_fallback (context : string) :
  context <> "whatsapp" -> context <> "phone" -> context <> "settings" ->
  _build_instruction context = _build_instruction "general".
Proof.
  intros H1 H2 H3. unfold _build_instruction. do 4 f_equal.
  cbn [dict_get context_specific].
  rewrite <- String.eqb_neq in H1, H2, H3. rewrite String.eqb_sym in H1, H2, H3.
  rewrite H1, H2, H3. now destruct (String.eqb "general" context).
Qed.

Lemma build_instruction_fallback_witness :
  _build_instruction "camera" = _build_instruction "general".
Proof.
  apply (build_instruction_fallback "camera"); discriminate.
Defined.

(** X26: on a file of conversations as the data preparation writes them,
    the loop of [prepare_training_data] raises nothing and yields one row
    per turn, in the order of the file: the instruction of the
    conversation's context ([general] when there is none), and the
    question and the answer of the turn (empty when missing); a
    conversation with no [conversations] adds no row. *)
Theorem formatted_data_rows (convs : list Py.value) :
  Forall conversation convs ->
  formatted_data (Py.VList convs) = Py.Return (flat_map examples_of convs)
  /\ List.length (flat_map examples_of convs)
     = list_sum (map (fun conv => List.length (turns_of conv)) convs).
Proof.
  intros H. split.
  - unfold formatted_data. cbn [Py.rbind Py.iter].
    assert (E : Py.comprehension rows_of convs = Py.Return (map examples_of convs)).
    { induction H as [|conv convs Hc _ IH]; [reflexivity|].
      cbn [Py.comprehension map]. rewrite (TrainingFacts.rows_of_conversation _ Hc).
      cbn [Py.rbind]. now rewrite IH. }
    rewrite E. cbn [Py.rbind]. now rewrite flat_map_concat_map.
  - clear H. induction convs as [|conv convs IH]; [reflexivity|].
    cbn [flat_map map list_sum fold_right]. rewrite length_app. unfold list_sum in IH.
    rewrite IH. unfold examples_of at 1. now rewrite length_map.
Qed.

(** ** The further properties at work *)

Import Endpoints.

Lemma check_health_listing_witness :
  check_health (answers (ok "{}" tags)) reason_phrase client []
  = (Return {| Health.status := "healthy";
               Health.error := None;
               Health.models := [VStr "llama3:8b"; VStr "gemma3:4b-instruct-q4_0"];
               Health.gemma_available := true |},
     [tags_request client]).
Proof.
  apply (check_health_listing (answers (ok "{}" tags)) reason_phrase client []
           (ok "{}" tags) _ _ ["llama3:8b"; "gemma3:4b-instruct-q4_0"]
           eq_refl eq_refl eq_refl eq_refl).
  repeat constructor; eexists; split; reflexivity.
Defined.

Lemma check_health_no_models_key_witness :
  check_health (answers (ok "{}" (VDict []))) reason_phrase client []
  = (Return {| Health.status := "healthy";
               Health.error := None;
               Health.models := [];
               Health.gemma_available := false |},
     [tags_request client]).
Proof.
  apply (check_health_no_models_key (answers (ok "{}" (VDict []))) reason_phrase
           client [] (ok "{}" (VDict [])) [] eq_refl eq_refl eq_refl eq_refl).
Defined.

Lemma check_health_invariant_witness :
  ((Health.status (unhealthy "All connection attempts failed") = "healthy"
    /\ Health.error (unhealthy "All connection attempts failed") = None)
   \/ (Health.status (unhealthy "All connection attempts failed") = "unhealthy"
       /\ Health.error (unhealthy "All connection attempts failed") <> None
       /\ Health.models (unhealthy "All connection attempts failed") = []
       /\ Health.gemma_available (unhealthy "All connection attempts failed") = false))
  /\ (Health.gemma_available (unhealthy "All connection attempts failed") = true ->
      Health.status (unhealthy "All connection attempts failed") = "healthy"
      /\ Health.models (unhealthy "All connection attempts failed") <> []).
Proof.
  apply (check_health_invariant unreachable reason_phrase client []
           [tags_request client] (unhealthy "All connection attempts failed") eq_refl).
Defined.

Lemma check_health_nameless_entry_witness :
  check_health (answers (ok "{}" tags_nameless)) reason_phrase client []
  = (Return {| Health.status := "unhealthy";
               Health.error := Some "'name'";
               Health.models := [];
               Health.gemma_available := false |},
     [tags_request client]).
Proof.
  apply (check_health_nameless_entry (answers (ok "{}" tags_nameless)) reason_phrase
           client [] (ok "{}" tags_nameless) _ _ eq_refl eq_refl eq_refl eq_refl).
  - repeat constructor; eexists; reflexivity.
  - right. left. eexists. split; reflexivity.
Defined.

Lemma analyze_query_request_witness :
  exists p : Payload,
    snd (analyze_query unreachable reason_phrase clock Settings_defaults
           (ask (Some "iVBORw0KGgo=") None) [])
    = [POST "http://localhost:11434/api/generate" p]
    /\ payload_stream p = false
    /\ payload_images p = Some ["iVBORw0KGgo="].
Proof.
  destruct (analyze_query_request unreachable reason_phrase clock Settings_defaults
              (ask (Some "iVBORw0KGgo=") None) [] eq_refl)
    as (p & Hlog & _ & Hstream & _ & Himages & _).
  exists p. repeat split; assumption.
Defined.

Lemma analyze_query_guidance_witness :
  (exists a,
     fst (analyze_query (answers (ok "{}" generated)) reason_phrase clock
            Settings_defaults (ask None None) []) = Return a
     /\ AnalysisResponse.guidance a = "1. Open the Phone app" ++ nl ++ "2. Tap the name"
     /\ AnalysisResponse.steps a
        = extract_steps ("1. Open the Phone app" ++ nl ++ "2. Tap the name")
     /\ AnalysisResponse.context a = "phone"
     /\ AnalysisResponse.timestamp a = clock)
  /\ (exists a,
        fst (analyze_query (answers (ok "{}" (VDict generated_nothing))) reason_phrase
               clock Settings_defaults (ask None None) []) = Return a
        /\ AnalysisResponse.guidance a = EmptyString
        /\ AnalysisResponse.steps a = None).
Proof.
  split.
  - apply (proj1 (analyze_query_guidance (answers (ok "{}" generated)) reason_phrase
                    clock Settings_defaults (ask None None) [] (ok "{}" generated)
                    [("response", VStr ("1. Open the Phone app" ++ nl ++ "2. Tap the name"));
                     ("done", VBool true)]
                    eq_refl eq_refl eq_refl eq_refl)
             ("1. Open the Phone app" ++ nl ++ "2. Tap the name")).
    reflexivity.
  - apply (proj2 (analyze_query_guidance (answers (ok "{}" (VDict generated_nothing)))
                    reason_phrase clock Settings_defaults (ask None None) []
                    (ok "{}" (VDict generated_nothing)) generated_nothing
                    eq_refl eq_refl eq_refl eq_refl)).
    reflexivity.
Defined.

Lemma analyze_query_unexpected_body_witness :
  analyze_query (answers (ok "{}" generated_null)) reason_phrase clock Settings_defaults
    (ask None None) []
  = (Raise (HTTPException 500 "Internal server error"),
     [analyze_request Settings_defaults (ask None None)]).
Proof.
  apply (analyze_query_unexpected_body (answers (ok "{}" generated_null)) reason_phrase
           clock Settings_defaults (ask None None) [] (ok "{}" generated_null)
           generated_null eq_refl eq_refl eq_refl eq_refl).
  right. exists [("response", VNone)], VNone. repeat split.
Defined.

Lemma health_check_backend_failure_witness :
  health_check (answers garbled) reason_phrase clock Settings_defaults []
  = (Return {| HealthResponse.server_status := "healthy";
               HealthResponse.ollama_status := "unhealthy";
               HealthResponse.available_models := [];
               HealthResponse.gemma_available := false;
               HealthResponse.timestamp := clock |},
     [tags_request client]).
Proof.
  apply (health_check_backend_failure (answers garbled) reason_phrase clock
           Settings_defaults []
           (Error "JSONDecodeError" "Expecting value: line 1 column 1 (char 0)")).
  reflexivity.
Defined.

Lemma health_check_answers_witness :
  forallb is_str [VStr "llama3:8b"; VStr "gemma3:4b-instruct-q4_0"] = true
  /\ exists a,
       fst (health_check (answers (ok "{}" tags)) reason_phrase clock Settings_defaults [])
       = Return a.
Proof.
  split; [reflexivity|].
  apply (proj1 (health_check_answers (answers (ok "{}" tags)) reason_phrase clock
                  Settings_defaults [] [tags_request client]
                  (healthy [VStr "llama3:8b"; VStr "gemma3:4b-instruct-q4_0"] true)
                  eq_refl)).
  reflexivity.
Defined.

Lemma get_models_outcomes_witness :
  get_models (answers not_found) reason_phrase Settings_defaults []
  = (Raise (HTTPException 503 "Ollama service not available"), [tags_request client])
  /\ get_models (answers (ok "{}" tags_null)) reason_phrase Settings_defaults []
     = (Raise (HTTPException 503 "Ollama service not available"), [tags_request client])
  /\ get_models (answers (ok "{}" tags_nameless)) reason_phrase Settings_defaults []
     = (Raise (HTTPException 503 "Ollama service not available"), [tags_request client])
  /\ get_models (answers (ok "{}" tags)) reason_phrase Settings_defaults []
     = (Return {| Models.models := [VStr "llama3:8b"; VStr "gemma3:4b-instruct-q4_0"];
                  Models.recommended := "gemma3:4b-instruct-q4_0";
                  Models.gemma_available := true |},
        [tags_request client]).
Proof.
  split; [|split; [|split]].
  - apply (proj1 (proj2 (proj2 (get_models_outcomes (answers not_found) reason_phrase
                                  Settings_defaults [])))
             (HTTPStatusError "Error '404'" 404 "model not found") eq_refl).
  - apply (proj1 (proj2 (proj2 (proj2 (get_models_outcomes (answers (ok "{}" tags_null))
                                         reason_phrase Settings_defaults []))))
             (ok "{}" tags_null) tags_null
             (TypeError "'NoneType' object is not iterable")); reflexivity.
  - apply (proj1 (proj2 (get_models_outcomes (answers (ok "{}" tags_nameless))
                           reason_phrase Settings_defaults []))
             (unhealthy "'name'") [tags_request client] eq_refl).
    discriminate.
  - apply (proj2 (proj2 (proj2 (proj2 (get_models_outcomes (answers (ok "{}" tags))
                                         reason_phrase Settings_defaults []))))
             (healthy [VStr "llama3:8b"; VStr "gemma3:4b-instruct-q4_0"] true)
             [tags_request client] eq_refl eq_refl).
Defined.

Lemma analyze_screenshot_delegates_witness :
  analyze_screenshot (answers (ok "{}" generated)) reason_phrase clock Settings_defaults
    (ScreenshotRequest.mk "iVBORw0KGgo=" "What can I do on this screen?" "general") []
  = analyze_query (answers (ok "{}" generated)) reason_phrase clock Settings_defaults
      (AnalysisRequest.mk "What can I do on this screen?" "general"
         (Some "iVBORw0KGgo=") None) [].
Proof.
  apply (analyze_screenshot_delegates (answers (ok "{}" generated)) reason_phrase clock
           Settings_defaults
           (ScreenshotRequest.mk "iVBORw0KGgo=" "What can I do on this screen?" "general")
           []).
  cbn. lia.
Defined.

Lemma analyze_screenshot_bad_question_witness :
  exists message,
    analyze_screenshot (answers (ok "{}" generated)) reason_phrase clock Settings_defaults
      (ScreenshotRequest.mk "iVBORw0KGgo=" EmptyString "general") []
    = (Raise (ValidationError message), []).
Proof.
  apply (analyze_screenshot_bad_question (answers (ok "{}" generated)) reason_phrase
           clock Settings_defaults
           (ScreenshotRequest.mk "iVBORw0KGgo=" EmptyString "general") []).
  now left.
Defined.

Lemma formatted_data_rows_witness :
  formatted_data (VList training_file) = Return (flat_map examples_of training_file)
  /\ List.length (flat_map examples_of training_file)
     = list_sum (map (fun conv => List.length (turns_of conv)) training_file).
Proof.
  apply (formatted_data_rows training_file).
  repeat constructor.
  - eexists. split; [reflexivity|]. split.
    + right. eexists. reflexivity.
    + right. eexists. split; [reflexivity|]. repeat constructor. eexists. reflexivity.
  - eexists. split; [reflexivity|]. split.
    + now left.
    + right. eexists. split; [reflexivity|]. repeat constructor; eexists; reflexivity.
  - eexists. split; [reflexivity|]. split.
    + right. eexists. reflexivity.
    + now left.
Defined.

(** The rows of that file: three turns, three rows, the second
    conversation under the general instruction. *)
Example formatted_data_example :
  formatted_data (VList training_file)
  = Return
      [Example.mk (_build_instruction "phone") (VStr "How do I call?")
         (VStr "1. Open the Phone app");
       Example.mk (_build_instruction "general") (VStr "I see Chats") (VStr EmptyString);
       Example.mk (_build_instruction "general") (VStr EmptyString) (VStr "Tap it")].
Proof. reflexivity. Qed.
